(** * fhirabstractmodel: a shallow embedding of the FHIR abstract model

    The development follows [templates/fhirabstractmodel-DISABLED.py]:
    the helper [filter_empty_list_dict], the constructor's resource-type
    check, [add_root_validator], [has_resource_base] and the two
    serialisers [dict] and [json] with their private workers
    [_fhir_iter] and [_fhir_get_value].

    Python objects are modelled by the inductive type [value]; a raising
    call returns [Raise e].  Dictionaries are association lists in
    insertion order, whose keys are pairwise distinct in every
    dictionary Python can build. *)

From Stdlib Require Import List String Ascii Bool Arith ZArith Lia.
Import ListNotations.
Local Open Scope string_scope.
Local Open Scope list_scope.

Set Implicit Arguments.
Set Warnings "-register-all".

(** ** Classes and their declared fields *)

(** A pydantic [ModelField], with the attributes the module reads.
    [field_primitive] is the answer of [is_primitive_type(field)], a
    helper of [fhir.resources.utils]. *)
Record ModelField : Type := mkField {
  field_name : string;
  field_alias : string;
  field_default : option string;
  field_primitive : bool;
  field_element_property : bool
}.

(** A model class (a subclass of [FHIRAbstractModel]).
    [cls_mro] lists the [__name__] of every class of [inspect.getmro(cls)],
    the class itself first.  [cls_elements_sequence] and
    [cls_alias_mapping] are the tables returned by the generated class
    methods [elements_sequence()] and [get_alias_mapping()]. *)
Record Class : Type := mkClass {
  cls_module : string;
  cls_name : string;
  cls_mro : list string;
  cls_resource_type : option string;
  cls_declared_fields : list (string * ModelField);
  cls_elements_sequence : list string;
  cls_alias_mapping : list (string * string);
  cls_use_enum_values : bool;
  cls_custom_root_type : bool
}.

(** ** Python values *)

Inductive value : Type :=
| VNone
| VEllipsis
| VBool (b : bool)
| VInt (n : Z)
| VStr (s : string)
| VEnum (member : string) (member_value : value)
| VList (items : list value)
| VTuple (items : list value)
| VDict (items : list (string * value))
| VModel (cls : Class) (attrs : list (string * value)).

(** [v is None] *)
Definition is_None (v : value) : bool :=
  match v with VNone => true | _ => false end.

(** ** Dictionaries *)

Section Dicts.
Variable A : Type.

(** [d.get(key)] *)
Fixpoint dict_get (key : string) (d : list (string * A)) : option A :=
  match d with
  | [] => None
  | (k, v) :: rest => if String.eqb key k then Some v else dict_get key rest
  end.

(** [key in d] *)
Definition dict_has (key : string) (d : list (string * A)) : bool :=
  match dict_get key d with Some _ => true | None => false end.

(** [del d[key]] *)
Fixpoint dict_del (key : string) (d : list (string * A)) : list (string * A) :=
  match d with
  | [] => []
  | (k, v) :: rest =>
      if String.eqb key k then dict_del key rest else (k, v) :: dict_del key rest
  end.

(** [d[key] = v]: an existing key keeps its position, a new key goes last. *)
Fixpoint dict_set (key : string) (v : A) (d : list (string * A)) : list (string * A) :=
  match d with
  | [] => [(key, v)]
  | (k, w) :: rest =>
      if String.eqb key k then (k, v) :: rest else (k, w) :: dict_set key v rest
  end.

Definition dict_keys (d : list (string * A)) : list string := map fst d.
End Dicts.

(** [OrderedDict(pairs)]: the pairs are set one after the other. *)
Definition insert_pair (A : Type) (d : list (string * A)) (kv : string * A)
  : list (string * A) :=
  dict_set (fst kv) (snd kv) d.

Definition OrderedDict (A : Type) (pairs : list (string * A)) : list (string * A) :=
  fold_left (@insert_pair A) pairs [].

(** ** [filter_empty_list_dict] *)

Definition FHIR_COMMENTS_FIELD_NAME : string := "fhir_comments".

Section Pruning.
Variable f : value -> value.

(** The list branch, [for idx, item in enumerate(items)], as a walk over
    the items not yet visited.  [del items[idx]] shifts the rest of the
    list one place to the left while the iterator moves one place to the
    right: the item that followed the deleted one is never visited and
    stays in the list as it is. *)
Fixpoint prune_list (items : list value) : list value :=
  match items with
  | [] => []
  | item :: rest =>
      if is_None item then item :: prune_list rest
      else if is_None (f item) then
        match rest with
        | [] => []
        | unvisited :: rest' => unvisited :: prune_list rest'
        end
      else f item :: prune_list rest
  end.

(** The dict branch, [for key in tuple(items.keys())]: the keys are
    copied before the loop, so every entry is visited. *)
Fixpoint prune_dict (items : list (string * value)) : list (string * value) :=
  match items with
  | [] => []
  | (key, item) :: rest =>
      if is_None item then (key, item) :: prune_dict rest
      else if is_None (f item) then prune_dict rest
      else (key, f item) :: prune_dict rest
  end.

(** The same list loop with Python's iterator state written out: the
    list object [items] and the position [idx] of the iterator. *)
Fixpoint remove_at (idx : nat) (items : list value) : list value :=
  match idx, items with
  | _, [] => []
  | O, _ :: rest => rest
  | S i, x :: rest => x :: remove_at i rest
  end.

Fixpoint replace_at (idx : nat) (v : value) (items : list value) : list value :=
  match idx, items with
  | _, [] => []
  | O, _ :: rest => v :: rest
  | S i, x :: rest => x :: replace_at i v rest
  end.

Fixpoint enumerate_loop (fuel idx : nat) (items : list value) : list value :=
  match fuel with
  | O => items
  | S fuel' =>
      match nth_error items idx with
      | None => items
      | Some item =>
          if is_None item then enumerate_loop fuel' (S idx) items
          else if is_None (f item)
               then enumerate_loop fuel' (S idx) (remove_at idx items)
               else enumerate_loop fuel' (S idx) (replace_at idx (f item) items)
      end
  end.
End Pruning.

Fixpoint filter_empty_list_dict (items : value) : value :=
  match items with
  | VList l =>
      if Nat.eqb (List.length l) 0 then VNone
      else let l' := prune_list filter_empty_list_dict l in
           if Nat.eqb (List.length l') 0 then VNone else VList l'
  | VDict d =>
      if Nat.eqb (List.length d) 0 then VNone
      else let d' := prune_dict filter_empty_list_dict d in
           if Nat.eqb (List.length d') 0 then VNone else VDict d'
  | _ => items
  end.

(** ** Exceptions *)

(** A [PydanticValueError]: its [code], its [msg_template] and the
    [error] entry of its context. *)
Record PydanticValueError : Type := mkValueError {
  err_code : string;
  err_msg_template : string;
  err_error : string
}.

Definition WrongResourceType (error : string) : PydanticValueError :=
  {| err_code := "wrong.resource_type";
     err_msg_template := "Wrong ResourceType: {error}";
     err_error := error |}.

(** [str(exc)] for a [WrongResourceType]: the template with [{error}]
    filled in. *)
Definition error_message (e : PydanticValueError) : string :=
  "Wrong ResourceType: " ++ err_error e.

Record ErrorWrapper : Type := mkErrorWrapper {
  ew_exc : PydanticValueError;
  ew_loc : string
}.

Inductive exn : Type :=
| KeyError (key : string)
| TypeError (msg : string)
| AttributeError (name : string)
| NotImplementedError (msg : string)
| ConfigError (msg : string)
| ValidationError (errors : list ErrorWrapper) (model : Class).

Inductive Result (A : Type) : Type :=
| Ok (a : A)
| Raise (e : exn).
Arguments Ok {A} a.
Arguments Raise {A} e.

Definition bind (A B : Type) (r : Result A) (k : A -> Result B) : Result B :=
  match r with
  | Ok a => k a
  | Raise e => Raise e
  end.

Notation "x <- r ;; k" := (bind r (fun x => k))
  (at level 61, r at next level, right associativity).

(** [d[key]] *)
Definition dict_item (A : Type) (key : string) (d : list (string * A)) : Result A :=
  match dict_get key d with
  | Some v => Ok v
  | None => Raise (KeyError key)
  end.

(** [d.get(key, None)] and [d.pop(key, None)] for a dictionary of values *)
Definition dict_get_None (key : string) (d : list (string * value)) : value :=
  match dict_get key d with
  | Some v => v
  | None => VNone
  end.

Definition dict_pop_None (key : string) (d : list (string * value))
  : value * list (string * value) :=
  (dict_get_None key d, dict_del key d).

(** ** The fields every model class has *)

(** [resource_type: str = ...] and [fhir_comments = Field(None,
    alias="fhir_comments", element_property=False)] are declared by
    [FHIRAbstractModel] itself; a subclass declares the default of
    [resource_type] and its own fields. *)
Definition __fields__ (c : Class) : list (string * ModelField) :=
  ("resource_type", mkField "resource_type" "resource_type" (cls_resource_type c) true false)
  :: (FHIR_COMMENTS_FIELD_NAME,
      mkField FHIR_COMMENTS_FIELD_NAME "fhir_comments" None true false)
  :: cls_declared_fields c.
Arguments __fields__ : simpl never.

(** [cls.__fields__["resource_type"].default] *)
Definition get_resource_type (c : Class) : option string :=
  match dict_get "resource_type" (__fields__ c) with
  | Some field => field_default field
  | None => None
  end.

(** The declared default as a value: a string, or [None] when the class
    declares none. *)
Definition default_tag (c : Class) : value :=
  match get_resource_type c with
  | Some s => VStr s
  | None => VNone
  end.

(** [cls.__module__ + "." + cls.__name__] *)
Definition qualified_name (c : Class) : string :=
  (cls_module c ++ "." ++ cls_name c)%string.

(** ** Construction: [FHIRAbstractModel.__init__] *)

Section Construction.

(** [format(v)] for a value that is not a string, as the f-string of
    the error message calls it. *)
Variable render : value -> string.

(** [BaseModel.__init__]: pydantic's validation of the remaining
    keyword arguments; it returns the [__dict__] of the instance. *)
Variable BaseModel_init : Class -> list (string * value) -> Result (list (string * value)).

Definition format_value (v : value) : string :=
  match v with
  | VStr s => s
  | _ => render v
  end.

Definition format_default (d : option string) : string :=
  match d with
  | Some s => s
  | None => "None"
  end.

(** [resource_type != default] *)
Definition differs_from_default (v : value) (d : option string) : bool :=
  match v, d with
  | VStr s, Some s' => negb (String.eqb s s')
  | VNone, None => false
  | _, _ => true
  end.

Definition wrong_resource_type_error (c : Class) (resource_type : value) : string :=
  "``" ++ cls_module c ++ "." ++ cls_name c ++ "`` "
  ++ "expects resource type ``" ++ format_default (get_resource_type c) ++ "``, "
  ++ "but got ``" ++ format_value resource_type ++ "``. "
  ++ "Make sure resource type name is correct and right "
  ++ "ModelClass has been chosen.".

(** Lines 119 to 146: everything [__init__] does before it hands
    [data] to [BaseModel.__init__].  The result is the [data] that is
    handed over. *)
Definition check_resource_type (c : Class) (data : list (string * value))
  : Result (list (string * value)) :=
  let '(resource_type, data) := dict_pop_None "resource_type" data in
  let '(resource_type, data) :=
    if dict_has "resourceType" data && negb (dict_has "resourceType" (__fields__ c))
    then dict_pop_None "resourceType" data
    else (resource_type, data) in
  let errors :=
    if negb (is_None resource_type)
       && differs_from_default resource_type (get_resource_type c)
    then [mkErrorWrapper
            (WrongResourceType (wrong_resource_type_error c resource_type))
            "resource_type"]
    else [] in
  match errors with
  | _ :: _ => Raise (ValidationError errors c)
  | [] => Ok data
  end.

Definition __init__ (c : Class) (data : list (string * value))
  : Result (list (string * value)) :=
  data' <- check_resource_type c data ;;
  BaseModel_init c data'.

End Construction.

(** A small validation engine, for the witnesses: it fills every field
    of [__fields__] from the entry under its alias, else under its name,
    else with its default, and refuses other keys ([Extra.forbid]). *)
Definition engine_value (data : list (string * value)) (f : ModelField) : value :=
  match dict_get (field_alias f) data with
  | Some v => v
  | None =>
      match dict_get (field_name f) data with
      | Some v => v
      | None => match field_default f with Some s => VStr s | None => VNone end
      end
  end.

Definition engine_known (c : Class) (key : string) : bool :=
  existsb (fun kf => String.eqb key (field_alias (snd kf)) || String.eqb key (field_name (snd kf)))
          (__fields__ c).

Definition simple_engine (c : Class) (data : list (string * value))
  : Result (list (string * value)) :=
  if forallb (engine_known c) (dict_keys data)
  then Ok (map (fun kf => (fst kf, engine_value data (snd kf))) (__fields__ c))
  else Raise (ValidationError [] c).

(** The same engine for a class with a post root validator, such as
    [add_root_validator] registers: pydantic stores the values the
    validator returns. *)
Definition hook_engine (validator : list (string * value) -> list (string * value))
    (c : Class) (data : list (string * value)) : Result (list (string * value)) :=
  match simple_engine c data with
  | Ok values => Ok (validator values)
  | Raise e => Raise e
  end.

(** ** Hook registration: [add_root_validator] *)

(** A Python function, as [add_root_validator] and pydantic's
    [root_validator] inspect it: [__name__], [__module__],
    [__qualname__] and the parameter names of [inspect.signature]. *)
Record Function : Type := mkFunction {
  fn_name : string;
  fn_module : string;
  fn_qualname : string;
  fn_params : list string
}.

(** The [validator] argument: a plain function, a [classmethod] object
    or a bound method. *)
Inductive Callable : Type :=
| PlainFunction (f : Function)
| ClassMethod (f : Function)
| BoundMethod (f : Function).

(** [validator.__func__] where the source takes it (line 164). *)
Definition underlying_function (validator : Callable) : Function :=
  match validator with
  | PlainFunction f => f
  | ClassMethod f => f
  | BoundMethod f => f
  end.

(** What a class [__dict__] holds under a name: a root validator that
    [add_root_validator] injected (with its [pre] and [skip_on_failure]
    settings), or anything else. *)
Inductive Attribute : Type :=
| InjectedRootValidator (func : Function) (pre skip_on_failure manually_injected : bool)
| OtherAttribute.

(** The mutable state [add_root_validator] reads and writes: the
    [__dict__] of the class and of the other classes of [cls.mro()],
    the two hook lists, and pydantic's registry [_FUNCS] of validator
    functions already in use. *)
Record ClassState : Type := mkClassState {
  st_class : Class;
  st_dict : list (string * Attribute);
  st_bases_dicts : list (list (string * Attribute));
  st_pre_root_validators : list Function;
  st_post_root_validators : list (bool * Function);
  st_FUNCS : list string
}.

(** [str(cls)] *)
Definition class_repr (c : Class) : string :=
  "<class '" ++ qualified_name c ++ "'>".

(** [str(inspect.signature(f))] for parameters without annotations or
    defaults *)
Definition signature_repr (params : list string) : string :=
  "(" ++ String.concat ", " params ++ ")".

Definition double_quote : string := String (ascii_of_nat 34) EmptyString.

(** [l.insert(index, x)] *)
Definition list_insert (A : Type) (index : Z) (x : A) (l : list A) : list A :=
  let n := Z.of_nat (List.length l) in
  let i := if (index <? 0)%Z then Z.max 0 (index + n) else Z.min index n in
  firstn (Z.to_nat i) l ++ x :: skipn (Z.to_nat i) l.

(** pydantic's [root_validator(...)(validator)]: unless [allow_reuse]
    is set, a function whose reference is already in [_FUNCS] is a
    duplicate, and a new one is recorded there. *)
Definition root_validator (allow_reuse : bool) (f : Function) (funcs : list string)
  : Result (list string) :=
  if allow_reuse then Ok funcs
  else
    let ref := (fn_module f ++ "." ++ fn_qualname f)%string in
    if existsb (String.eqb ref) funcs
    then Raise (ConfigError
           ("duplicate validator function " ++ double_quote ++ ref ++ double_quote
            ++ "; if this is intended, set `allow_reuse=True`")%string)
    else Ok (ref :: funcs).

Definition with_FUNCS (st : ClassState) (funcs : list string) : ClassState :=
  mkClassState (st_class st) (st_dict st) (st_bases_dicts st)
               (st_pre_root_validators st) (st_post_root_validators st) funcs.

(** The call returns the outcome together with the state it leaves
    behind, also when it raises. *)
Definition add_root_validator (st : ClassState) (validator : Callable)
    (pre skip_on_failure allow_reuse : bool) (index : Z)
  : Result unit * ClassState :=
  let func := underlying_function validator in
  let func_name := fn_name func in
  let cls := st_class st in
  if existsb (dict_has func_name) (st_dict st :: st_bases_dicts st) then
    (Raise (ConfigError (class_repr cls ++ " already has same name '" ++ func_name
                         ++ "' method or attribute!")%string), st)
  else if dict_has func_name (__fields__ cls) then
    (Raise (ConfigError (class_repr cls ++ " already has same name '" ++ func_name
                         ++ "' field!")%string), st)
  else
    match root_validator allow_reuse func (st_FUNCS st) with
    | Raise e => (Raise e, st)
    | Ok funcs =>
        let st := with_FUNCS st funcs in
        let arg_list := fn_params func in
        if negb (Nat.eqb (List.length arg_list) 2) then
          (Raise (ConfigError
                    ("Invalid signature for root validator " ++ func_name ++ ": "
                     ++ signature_repr arg_list ++ ", should be: (cls, values).")%string), st)
        else if negb (String.eqb (hd "" arg_list) "cls") then
          (Raise (ConfigError
                    ("Invalid signature for root validator " ++ func_name ++ ": "
                     ++ signature_repr arg_list ++ ", "
                     ++ double_quote ++ hd "" arg_list ++ double_quote
                     ++ " not permitted as first argument, "
                     ++ "should be: (cls, values).")%string), st)
        else
          let pre_list :=
            if pre then
              if (index =? -1)%Z then st_pre_root_validators st ++ [func]
              else list_insert index func (st_pre_root_validators st)
            else st_pre_root_validators st in
          let post_list :=
            if pre then st_post_root_validators st
            else if (index =? -1)%Z
                 then st_post_root_validators st ++ [(skip_on_failure, func)]
                 else list_insert index (skip_on_failure, func) (st_post_root_validators st) in
          (Ok tt,
           mkClassState cls
             (dict_set func_name (InjectedRootValidator func pre skip_on_failure true)
                       (st_dict st))
             (st_bases_dicts st) pre_list post_list (st_FUNCS st))
    end.

(** ** Resource-base classification *)

(** [inspect.getmro(cls)[:-4]] *)
Definition drop_last (n : nat) (A : Type) (l : list A) : list A :=
  firstn (List.length l - n) l.

Definition has_resource_base (c : Class) : bool :=
  existsb (fun name => String.eqb name "Resource") (drop_last 4 (cls_mro c)).

(** ** Serialisation: [_fhir_get_value], [_fhir_iter], [dict], [json] *)

(** [sequence_like(v) or isinstance(v, dict)], for the values modelled *)
Definition is_sequence_or_dict (v : value) : bool :=
  match v with
  | VList _ | VTuple _ | VDict _ => true
  | _ => false
  end.

(** [len(v)] *)
Definition py_len (v : value) : Result nat :=
  match v with
  | VStr s => Ok (String.length s)
  | VList l => Ok (List.length l)
  | VTuple l => Ok (List.length l)
  | VDict d => Ok (List.length d)
  | _ => Raise (TypeError "object has no len()")
  end.

(** [len(v)] of a sequence or mapping *)
Definition container_length (v : value) : nat :=
  match v with
  | VList l | VTuple l => List.length l
  | VDict d => List.length d
  | _ => 0
  end.

(** The end of [_fhir_get_value] (lines 586 to 592). *)
Definition collapse_empty (exclude_none : bool) (v : value) : value :=
  if is_sequence_or_dict v && exclude_none && Nat.eqb (container_length v) 0
  then VNone
  else v.

(** [by_alias and alias or key] *)
Definition output_key (by_alias : bool) (alias key : string) : string :=
  if by_alias && negb (String.eqb alias "") then alias else key.

Section Traversal.
Variable convert : value -> Result value.

(** A generator expression or dict comprehension over converted items:
    the first item that raises ends it. *)
Fixpoint convert_items (items : list value) : Result (list value) :=
  match items with
  | [] => Ok []
  | item :: rest =>
      item' <- convert item ;;
      rest' <- convert_items rest ;;
      Ok (item' :: rest')
  end.

Fixpoint convert_entries (items : list (string * value)) : Result (list (string * value)) :=
  match items with
  | [] => Ok []
  | (key, item) :: rest =>
      item' <- convert item ;;
      rest' <- convert_entries rest ;;
      Ok ((key, item') :: rest')
  end.

(** The conversion of every attribute of an instance, by attribute
    name; [_fhir_iter] reads the entries it needs. *)
Fixpoint converted_attrs (attrs : list (string * value)) : list (string * Result value) :=
  match attrs with
  | [] => []
  | (key, item) :: rest => (key, convert item) :: converted_attrs rest
  end.
End Traversal.

Section Iteration.
Variable c : Class.
Variables by_alias exclude_none exclude_comments : bool.
(** [self.__dict__] and, for each of its entries, the outcome of
    [self._fhir_get_value] on it *)
Variable attrs : list (string * value).
Variable converted : list (string * Result value).

(** [self._fhir_get_value(self.__dict__[key], ...)] *)
Definition converted_value (key : string) : Result value :=
  match dict_get key converted with
  | Some r => r
  | None => Ok VNone
  end.

(** The extension part of one round of the loop (lines 526 to 538). *)
Definition emit_extension (field_key : string) : Result (list (string * value)) :=
  let ext_key := (field_key ++ "__ext")%string in
  let ext_val := dict_get_None ext_key attrs in
  if negb (is_None ext_val) then
    dict_key_ <- (if by_alias
                  then ext_field <- dict_item ext_key (__fields__ c) ;;
                       Ok (output_key true (field_alias ext_field) ext_key)
                  else Ok ext_key) ;;
    ext_val <- converted_value ext_key ;;
    if negb (is_None ext_val) then
      n <- py_len ext_val ;;
      if Nat.ltb 0 n then Ok [(dict_key_, ext_val)] else Ok []
    else Ok []
  else Ok [].

(** One round of [for prop_name in self.elements_sequence()]: the
    pairs it yields. *)
Definition emit_element (prop_name : string) : Result (list (string * value)) :=
  field_key <- dict_item prop_name (cls_alias_mapping c) ;;
  field <- dict_item field_key (__fields__ c) ;;
  let is_primitive := field_primitive field in
  let v := dict_get_None field_key attrs in
  let dict_key := output_key by_alias (field_alias field) field_key in
  v <- (if negb (is_None v) then converted_value field_key else Ok v) ;;
  let yielded :=
    if negb (is_None v) || (negb exclude_none && is_None v)
    then [(dict_key, v)] else [] in
  ext <- (if is_primitive then emit_extension field_key else Ok []) ;;
  Ok (yielded ++ ext).

Fixpoint emit_elements (props : list string) : Result (list (string * value)) :=
  match props with
  | [] => Ok []
  | prop_name :: rest =>
      pairs <- emit_element prop_name ;;
      rest' <- emit_elements rest ;;
      Ok (pairs ++ rest')
  end.

(** [self.resource_type] *)
Definition resource_type_attr : Result value :=
  match dict_get "resource_type" attrs with
  | Some v => Ok v
  | None => Raise (AttributeError "resource_type")
  end.

(** The pairs the generator yields, in order. *)
Definition _fhir_iter : Result (list (string * value)) :=
  tag <- (if has_resource_base c
          then rt <- resource_type_attr ;; Ok [("resourceType", rt)]
          else Ok []) ;;
  elements <- emit_elements (cls_elements_sequence c) ;;
  let comments := dict_get_None FHIR_COMMENTS_FIELD_NAME attrs in
  Ok (tag ++ elements
      ++ (if negb (is_None comments) && negb exclude_comments
          then [(FHIR_COMMENTS_FIELD_NAME, comments)] else [])).
End Iteration.

(** [cls._fhir_get_value(v, ...)]; for a nested model the recursion
    goes through [v.dict(...)], with no extra argument. *)
Fixpoint _fhir_get_value (cls : Class) (by_alias exclude_none exclude_comments : bool)
    (v : value) {struct v} : Result value :=
  match v with
  | VModel c attrs =>
      pairs <- _fhir_iter c by_alias exclude_none exclude_comments attrs
                 (converted_attrs
                    (_fhir_get_value c by_alias exclude_none exclude_comments) attrs) ;;
      let v_dict := OrderedDict pairs in
      match dict_get "__root__" v_dict with
      | Some root => Ok root
      | None => Ok (collapse_empty exclude_none (VDict v_dict))
      end
  | VDict items =>
      items' <- convert_entries
                  (_fhir_get_value cls by_alias exclude_none exclude_comments) items ;;
      Ok (collapse_empty exclude_none (VDict items'))
  | VList items =>
      items' <- convert_items
                  (_fhir_get_value cls by_alias exclude_none exclude_comments) items ;;
      Ok (collapse_empty exclude_none (VList items'))
  | VTuple items =>
      items' <- convert_items
                  (_fhir_get_value cls by_alias exclude_none exclude_comments) items ;;
      Ok (collapse_empty exclude_none (VTuple items'))
  | VEnum _ member_value =>
      if cls_use_enum_values cls
      then Ok (collapse_empty exclude_none member_value)
      else Ok v
  | _ => Ok v
  end.

(** An instance: its class and its [__dict__]. *)
Record Instance : Type := mkInstance {
  inst_class : Class;
  inst_dict : list (string * value)
}.

(** The body of [dict] after the warning. *)
Definition dict_pairs (self : Instance) (by_alias exclude_none exclude_comments : bool)
  : Result (list (string * value)) :=
  pairs <- _fhir_iter (inst_class self) by_alias exclude_none exclude_comments
             (inst_dict self)
             (converted_attrs
                (_fhir_get_value (inst_class self) by_alias exclude_none exclude_comments)
                (inst_dict self)) ;;
  Ok (OrderedDict pairs).

Definition dict_warning (c : Class) : string :=
  (cls_name c ++ ".dict method accepts only"
   ++ "´by_alias´, ´exclude_none´, ´exclude_comments` as parameters"
   ++ " since version v6.2.0, any extra parameter is simply ignored. "
   ++ "You should not provide any extra argument.")%string.

(** [self.dict(by_alias=..., exclude_none=..., exclude_comments=...,
    **pydantic_extra)]: the warnings logged and the outcome.  The extra
    keyword arguments may hold anything. *)
Definition dict (Any : Type) (self : Instance)
    (by_alias exclude_none exclude_comments : bool)
    (pydantic_extra : list (string * Any))
  : list string * Result (list (string * value)) :=
  ((if Nat.ltb 0 (List.length pydantic_extra) then [dict_warning (inst_class self)] else []),
   dict_pairs self by_alias exclude_none exclude_comments).

(** The [include] and [exclude] arguments of [json]: [None], a set of
    names, a mapping, or an object of another type, of which
    [str(type(exclude))] is kept. *)
Inductive FieldSet : Type :=
| FieldSetNone
| FieldSetSet (names : list string)
| FieldSetDict (entries : list (string * value))
| FieldSetOther (type_repr : string).

(** A keyword argument that [json] passes on to [dict]. *)
Inductive Argument : Type :=
| ArgFieldSet (s : FieldSet)
| ArgBool (b : bool).

Definition ROOT_KEY : string := "__root__".

(** Lines 397 to 408. *)
Definition exclude_with_comments (exclude : FieldSet) : Result FieldSet :=
  match exclude with
  | FieldSetNone => Ok (FieldSetSet [FHIR_COMMENTS_FIELD_NAME])
  | FieldSetSet names =>
      Ok (FieldSetSet (if existsb (String.eqb FHIR_COMMENTS_FIELD_NAME) names
                       then names else names ++ [FHIR_COMMENTS_FIELD_NAME]))
  | FieldSetDict entries =>
      Ok (FieldSetDict (dict_set FHIR_COMMENTS_FIELD_NAME VEllipsis entries))
  | FieldSetOther type_repr =>
      Raise (NotImplementedError
               ("Only Set or Dict type ``exclude`` value is accepted "
                ++ "but got type ``" ++ type_repr ++ "``")%string)
  end.

(** [json], up to the [data] it hands to [json_dumps] (lines 391 to
    450): the warnings [dict] logs and the outcome.  The choice of the
    encoder and its keyword arguments do not change [data] and are left
    out.  [self.dict] is called with [include], [exclude],
    [exclude_unset] and [exclude_defaults], which land in its
    [pydantic_extra], and without [exclude_comments], which so keeps its
    default [False]. *)
Definition json_data (self : Instance) (include exclude : FieldSet)
    (by_alias : option bool) (exclude_unset exclude_defaults : bool)
    (exclude_none : option bool) (exclude_comments : bool)
  : list string * Result value :=
  let by_alias := match by_alias with Some b => b | None => true end in
  let exclude_none := match exclude_none with Some b => b | None => true end in
  match (if exclude_comments then exclude_with_comments exclude else Ok exclude) with
  | Raise e => ([], Raise e)
  | Ok exclude =>
      let '(warnings, outcome) :=
        dict self by_alias exclude_none false
             [("include", ArgFieldSet include); ("exclude", ArgFieldSet exclude);
              ("exclude_unset", ArgBool exclude_unset);
              ("exclude_defaults", ArgBool exclude_defaults)] in
      (warnings,
       data <- outcome ;;
       data <- (if cls_custom_root_type (inst_class self)
                then dict_item ROOT_KEY data else Ok (VDict data)) ;;
       Ok (if exclude_comments then filter_empty_list_dict data else data))
  end.

(** ** Predicates the statements use *)

(** Some mapping inside [v], at any depth, has the comment key. *)
Fixpoint has_comment_key (v : value) : bool :=
  match v with
  | VList items | VTuple items => existsb has_comment_key items
  | VDict items =>
      dict_has FHIR_COMMENTS_FIELD_NAME items
      || existsb (fun kv => has_comment_key (snd kv)) items
  | _ => false
  end.

(** The number of [None] entries of the lists and mappings of [v], at
    any depth. *)
Fixpoint null_entries (v : value) : nat :=
  match v with
  | VList items =>
      list_sum (map (fun item => if is_None item then 1 else null_entries item) items)
  | VDict items =>
      list_sum (map (fun kv => if is_None (snd kv) then 1 else null_entries (snd kv)) items)
  | _ => 0
  end.

(** The field an element name stands for: its key in [__fields__]
    and the field itself, as one round of the loop of [_fhir_iter]
    looks them up. *)
Definition element_field (c : Class) (prop_name : string) : option (string * ModelField) :=
  match dict_get prop_name (cls_alias_mapping c) with
  | Some field_key =>
      match dict_get field_key (__fields__ c) with
      | Some field => Some (field_key, field)
      | None => None
      end
  | None => None
  end.

(** What an element contributes to the mapping of a record in which
    only the field [k] is set, to an empty list, when [None] is kept. *)
Definition element_pair (c : Class) (by_alias : bool) (k prop_name : string)
  : list (string * value) :=
  match element_field c prop_name with
  | Some (field_key, field) =>
      [(output_key by_alias (field_alias field) field_key,
        if String.eqb field_key k then VList [] else VNone)]
  | None => []
  end.

(** What the comments block (lines 540 to 542) contributes for the same
    record: the empty list as it is, when [k] is the comments field and
    comments are not excluded. *)
Definition comments_pair (exclude_comments : bool) (k : string) : list (string * value) :=
  if String.eqb k FHIR_COMMENTS_FIELD_NAME && negb exclude_comments
  then [(FHIR_COMMENTS_FIELD_NAME, VList [])]
  else [].

(** [k] is a key under which [_fhir_iter] can emit a declared element
    of the class or the extension companion of a primitive one. *)
Definition field_output_key (c : Class) (by_alias : bool) (k : string) : Prop :=
  exists prop_name field_key field,
    In prop_name (cls_elements_sequence c)
    /\ element_field c prop_name = Some (field_key, field)
    /\ (k = output_key by_alias (field_alias field) field_key
        \/ (field_primitive field = true
            /\ if by_alias
               then exists ext_field,
                      dict_get (field_key ++ "__ext")%string (__fields__ c) = Some ext_field
                      /\ k = output_key true (field_alias ext_field)
                                        (field_key ++ "__ext")%string
               else k = (field_key ++ "__ext")%string)).

(** [v] holds no list, at any depth of its mappings. *)
Fixpoint list_free (v : value) : bool :=
  match v with
  | VList _ => false
  | VDict items => forallb (fun kv => list_free (snd kv)) items
  | _ => true
  end.

(** The class can emit an element, or an extension companion, under
    the key [k]: [field_output_key] as a test. *)
Definition emits_key (c : Class) (by_alias : bool) (k : string) : bool :=
  existsb
    (fun prop_name =>
       match element_field c prop_name with
       | Some (field_key, field) =>
           String.eqb k (output_key by_alias (field_alias field) field_key)
           || (field_primitive field
               && if by_alias
                  then match dict_get (field_key ++ "__ext")%string (__fields__ c) with
                       | Some ext_field =>
                           String.eqb k (output_key true (field_alias ext_field)
                                                    (field_key ++ "__ext")%string)
                       | None => false
                       end
                  else String.eqb k (field_key ++ "__ext")%string)
       | None => false
       end)
    (cls_elements_sequence c).

(** Comments are kept apart from the data: no mapping among the raw
    values has the comment key, and no class emits an element under it. *)
Fixpoint comments_apart (by_alias : bool) (v : value) : bool :=
  match v with
  | VModel c attrs =>
      negb (emits_key c by_alias FHIR_COMMENTS_FIELD_NAME)
      && forallb (fun kv => comments_apart by_alias (snd kv)) attrs
  | VDict items =>
      negb (dict_has FHIR_COMMENTS_FIELD_NAME items)
      && forallb (fun kv => comments_apart by_alias (snd kv)) items
  | VList items | VTuple items => forallb (comments_apart by_alias) items
  | VEnum _ member_value => negb (has_comment_key member_value)
  | _ => true
  end.



Definition is_list_or_dict (v : value) : bool :=
  match v with
  | VList _ | VDict _ => true
  | _ => false
  end.

(** ** Sample classes *)

Definition framework_mro : list string :=
  ["FHIRAbstractModel"; "BaseModel"; "Representation"; "ABC"; "object"].

(** A non-resource structure with one primitive element and its
    extension companion. *)
Definition HumanName : Class :=
  mkClass "fhir.resources.humanname" "HumanName"
    ("HumanName" :: "Element" :: framework_mro)
    (Some "HumanName")
    [("family", mkField "family" "family" None true true);
     ("family__ext", mkField "family__ext" "_family" None false false)]
    ["family"]
    [("family", "family")]
    false false.

(** A resource with a primitive element and a list element. *)
Definition Patient : Class :=
  mkClass "fhir.resources.patient" "Patient"
    ("Patient" :: "DomainResource" :: "Resource" :: framework_mro)
    (Some "Patient")
    [("active", mkField "active" "active" None true true);
     ("active__ext", mkField "active__ext" "_active" None false false);
     ("name", mkField "name" "name" None false true)]
    ["active"; "name"]
    [("active", "active"); ("name", "name")]
    false false.

(** A non-resource structure that declares an element named
    [resourceType], the case line 123 provides for. *)
Definition Tagged : Class :=
  mkClass "example" "Tagged"
    ("Tagged" :: "Element" :: framework_mro)
    (Some "Tagged")
    [("resourceType", mkField "resourceType" "resourceType" None false true)]
    ["resourceType"]
    [("resourceType", "resourceType")]
    false false.

(** The state of a freshly defined [Patient] class. *)
Definition Patient_state : ClassState :=
  mkClassState Patient
    [("elements_sequence", OtherAttribute)]
    [[("dict", OtherAttribute); ("json", OtherAttribute);
      ("add_root_validator", OtherAttribute)]]
    [] [] [].

(** A patient with two names: one with a family name and a comment,
    one that holds nothing but a comment. *)
Definition commented_patient : Instance :=
  mkInstance Patient
    [("resource_type", VStr "Patient");
     ("active", VBool true);
     ("name",
      VList [VModel HumanName
               [("resource_type", VStr "HumanName");
                ("family", VStr "Smith");
                (FHIR_COMMENTS_FIELD_NAME, VList [VStr "legal name"])];
             VModel HumanName
               [("resource_type", VStr "HumanName");
                (FHIR_COMMENTS_FIELD_NAME, VStr "only a comment")]])].

(** A [format] for the witnesses. *)
Definition render_repr (v : value) : string :=
  match v with
  | VNone => "None"
  | VBool true => "True"
  | VBool false => "False"
  | _ => "<object>"
  end.

(** ** Further predicates *)

(** The values of [v] that are neither lists nor mappings, in order:
    what the lists and mappings of [v] hold in the end. *)
Fixpoint leaves (v : value) : list value :=
  match v with
  | VList items => flat_map leaves items
  | VDict items => flat_map (fun kv => leaves (snd kv)) items
  | _ => [v]
  end.

(** Some list or mapping inside [v] is empty, at any depth: inside
    lists, mappings and tuples, and inside the attributes of a model
    instance or the value of an enum member. *)
Fixpoint has_empty_container (v : value) : bool :=
  match v with
  | VList items =>
      Nat.eqb (List.length items) 0 || existsb has_empty_container items
  | VDict items =>
      Nat.eqb (List.length items) 0
      || existsb (fun kv => has_empty_container (snd kv)) items
  | VTuple items => existsb has_empty_container items
  | VModel _ attrs => existsb (fun kv => has_empty_container (snd kv)) attrs
  | VEnum _ member_value => has_empty_container member_value
  | _ => false
  end.

(** [v] is made of mappings and scalars only: it holds no list, tuple,
    model instance or enum member, at any depth. *)
Fixpoint mappings_only (v : value) : bool :=
  match v with
  | VDict items => forallb (fun kv => mappings_only (snd kv)) items
  | VList _ | VTuple _ | VModel _ _ | VEnum _ _ => false
  | _ => true
  end.

(** ** Encoding: the rest of [json] and the [orjson] wrapper *)

(** What an encoder returns: [str] or [bytes]. *)
Inductive Encoded : Type :=
| Text (s : string)
| Bytes (b : list Byte.byte).

(** [bool(v)] *)
Definition py_truthy (v : value) : bool :=
  match v with
  | VNone => false
  | VEllipsis => true
  | VBool b => b
  | VInt n => negb (Z.eqb n 0)
  | VStr s => negb (String.eqb s "")
  | VEnum _ _ => true
  | VList l | VTuple l => negb (Nat.eqb (List.length l) 0)
  | VDict d => negb (Nat.eqb (List.length d) 0)
  | VModel _ _ => true
  end.

(** [v == 0] *)
Definition py_is_zero (v : value) : bool :=
  match v with
  | VInt n => Z.eqb n 0
  | VBool b => negb b
  | _ => false
  end.

(** [v > 0]: defined for integers and booleans. *)
Definition py_positive (v : value) : Result bool :=
  match v with
  | VInt n => Ok (Z.ltb 0 n)
  | VBool b => Ok b
  | _ => Raise (TypeError "'>' not supported between these instances")
  end.

Definition orjson_warning : string :=
  ("When ``dumps`` method is used from ``orjson`` "
   ++ "all dumps kwargs are ignored except `indent`, `sort_keys` "
   ++ "and of course ``option`` from orjson")%string.

Section Encoding.

(** [orjson.OPT_INDENT_2] and [orjson.OPT_SORT_KEYS] *)
Variables OPT_INDENT_2 OPT_SORT_KEYS : Z.

(** Lines 414 to 436: what becomes of [dumps_kwargs] when the
    configured encoder is the [orjson] wrapper: the log, and the keyword
    arguments handed to the encoder.  Inside the first [if], [option] is
    [0] or [False]; it is an integer after [|=], and is not passed on
    when it stays zero. *)
Definition orjson_kwargs (dumps_kwargs : list (string * value)) (return_bytes : bool)
  : list string * Result (list (string * value)) :=
  let option :=
    match dict_get "option" dumps_kwargs with Some o => o | None => VInt 0 end in
  let dumps_kwargs := dict_del "option" dumps_kwargs in
  let '(option, dumps_kwargs) :=
    if py_is_zero option then
      let '(n, dumps_kwargs) :=
        if dict_has "indent" dumps_kwargs
        then (Z.lor 0 OPT_INDENT_2, dict_del "indent" dumps_kwargs)
        else (0%Z, dumps_kwargs) in
      let sort_keys :=
        match dict_get "sort_keys" dumps_kwargs with
        | Some s => s
        | None => VBool false
        end in
      let dumps_kwargs := dict_del "sort_keys" dumps_kwargs in
      (VInt (if py_truthy sort_keys then Z.lor n OPT_SORT_KEYS else n), dumps_kwargs)
    else (option, dumps_kwargs) in
  let '(warnings, dumps_kwargs) :=
    if Nat.ltb 0 (List.length dumps_kwargs)
    then ([orjson_warning], [])
    else ([], dumps_kwargs) in
  match py_positive option with
  | Raise e => (warnings, Raise e)
  | Ok positive =>
      let dumps_kwargs :=
        if positive then dict_set "option" option dumps_kwargs else dumps_kwargs in
      (warnings, Ok (dict_set "return_bytes" (VBool return_bytes) dumps_kwargs))
  end.

(** [str.encode("utf-8", errors="strict")] and [bytes.decode()] *)
Variable str_encode : string -> Result (list Byte.byte).
Variable bytes_decode : list Byte.byte -> Result string.

(** Lines 461 to 466. *)
Definition as_requested (return_bytes : bool) (result : Encoded) : Result Encoded :=
  if return_bytes then
    match result with
    | Text s => b <- str_encode s ;; Ok (Bytes b)
    | Bytes _ => Ok result
    end
  else
    match result with
    | Bytes b => s <- bytes_decode b ;; Ok (Text s)
    | Text _ => Ok result
    end.

(** The encoder of the configuration, [self.__config__.json_dumps],
    called with [data] and the keyword arguments (the [default] callback
    is part of it), and whether its [__qualname__] is that of the
    [orjson] wrapper. *)
Variable json_dumps : value -> list (string * value) -> Result Encoded.
Variable orjson_configured : bool.

(** [json]: the log and the outcome. *)
Definition json (self : Instance) (include exclude : FieldSet)
    (by_alias : option bool) (exclude_unset exclude_defaults : bool)
    (exclude_none : option bool) (exclude_comments return_bytes : bool)
    (dumps_kwargs : list (string * value))
  : list string * Result Encoded :=
  match (if exclude_comments then exclude_with_comments exclude else Ok exclude) with
  | Raise e => ([], Raise e)
  | Ok _ =>
      let '(warnings, kwargs) :=
        if orjson_configured then orjson_kwargs dumps_kwargs return_bytes
        else ([], Ok dumps_kwargs) in
      match kwargs with
      | Raise e => (warnings, Raise e)
      | Ok kwargs =>
          let '(warnings', outcome) :=
            json_data self include exclude by_alias exclude_unset exclude_defaults
                      exclude_none exclude_comments in
          (warnings ++ warnings',
           data <- outcome ;;
           result <- json_dumps data kwargs ;;
           as_requested return_bytes result)
      end
  end.

(** [orjson.dumps(v, default=..., option=...)], with the option when
    one is passed. *)
Variable orjson_dumps : value -> option value -> Result (list Byte.byte).

(** The module's own encoder (lines 28 to 37), on the keyword arguments
    it is called with. *)
Definition orjson_json_dumps (v : value) (kwargs : list (string * value))
  : Result Encoded :=
  if negb (Nat.eqb (List.length (dict_del "option" (dict_del "return_bytes" kwargs))) 0)
  then Raise (TypeError "json_dumps() got an unexpected keyword argument")
  else
    let option :=
      match dict_get "option" kwargs with Some o => o | None => VInt 0 end in
    let return_bytes :=
      match dict_get "return_bytes" kwargs with Some b => b | None => VBool false end in
    positive <- py_positive option ;;
    result <- orjson_dumps v (if positive then Some option else None) ;;
    match return_bytes with
    | VBool false => s <- bytes_decode result ;; Ok (Text s)
    | _ => Ok (Bytes result)
    end.
End Encoding.

(** Python's [str] as its UTF-8 bytes, for the witnesses. *)
Definition utf8_encode (s : string) : Result (list Byte.byte) :=
  Ok (list_byte_of_string s).

Definition utf8_decode (b : list Byte.byte) : Result string :=
  Ok (string_of_list_byte b).

(** An encoder that returns text, for the witnesses. *)
Definition text_dumps (v : value) (kwargs : list (string * value)) : Result Encoded :=
  Ok (Text (if is_None v then "null" else "{}")).

(** [dumps_kwargs] with another value under [indent], when it has one. *)
Definition with_indent (v : value) (dumps_kwargs : list (string * value))
  : list (string * value) :=
  map (fun kv => if String.eqb (fst kv) "indent" then (fst kv, v) else kv) dumps_kwargs.

(** ** [yaml] *)

(** What pydantic's [exclude] says of one field: [...], a set of names,
    or a mapping from names (or [__all__]) to such values. *)
Inductive ExcludeSpec : Type :=
| ExcludeAll
| ExcludeNames (names : list string)
| ExcludeNested (entries : list (string * ExcludeSpec)).

(** The [include] and [exclude] arguments of [yaml]: [None], a set or a
    mapping. *)
Inductive Exclusion : Type :=
| NoExclusion
| ExclusionSet (names : list string)
| ExclusionDict (entries : list (string * ExcludeSpec)).

(** [s.add(x)] *)
Definition set_add (x : string) (s : list string) : list string :=
  if existsb (String.eqb x) s then s else s ++ [x].

(** [key in exclude], for a set or mapping *)
Definition exclusion_has (key : string) (e : Exclusion) : bool :=
  match e with
  | NoExclusion => false
  | ExclusionSet names => existsb (String.eqb key) names
  | ExclusionDict entries => dict_has key entries
  end.

(** [d.update(other)] *)
Definition dict_update (A : Type) (d other : list (string * A)) : list (string * A) :=
  fold_left (@insert_pair A) other d.

Section Yaml.

(** [getattr(field.type_, "is_primitive", fallback_type_method)()], and
    the test of line 336: the field is a [typing.List] of its type. *)
Variables type_is_primitive outer_is_list : ModelField -> bool.

(** [BaseModel.dict(self, include=..., exclude=..., by_alias=...,
    skip_defaults=..., exclude_unset=..., exclude_defaults=...,
    exclude_none=...)], pydantic's. *)
Variable BaseModel_dict :
  Instance -> Exclusion -> Exclusion -> bool -> option bool -> bool -> bool -> bool ->
  Result (list (string * value)).

(** Lines 329 to 344: the loop over the fields. *)
Definition children_excludes (c : Class) : list (string * ExcludeSpec) :=
  fold_left
    (fun children kf =>
       let field := snd kf in
       if type_is_primitive field then children
       else if outer_is_list field
            then dict_set (field_name field)
                          (ExcludeNested [("__all__", ExcludeNames [FHIR_COMMENTS_FIELD_NAME])])
                          children
            else dict_set (field_name field) (ExcludeNames [FHIR_COMMENTS_FIELD_NAME])
                          children)
    (__fields__ c) [].

(** Lines 315 to 321. *)
Definition exclude_resource_type (exclude : Exclusion) : Exclusion :=
  match exclude with
  | NoExclusion => ExclusionSet ["resource_type"]
  | ExclusionSet names => ExclusionSet (set_add "resource_type" names)
  | ExclusionDict entries =>
      if negb (dict_has "resource_type" entries)
      then ExclusionDict (dict_set "resource_type" ExcludeAll entries)
      else exclude
  end.

(** Lines 346 to 351. *)
Definition exclude_children (c : Class) (exclude : Exclusion) : Exclusion :=
  if Nat.ltb 0 (List.length (children_excludes c)) then
    match exclude with
    | ExclusionSet names =>
        ExclusionDict
          (dict_update (OrderedDict (map (fun e => (e, ExcludeAll)) names))
                       (children_excludes c))
    | ExclusionDict entries => ExclusionDict (dict_update entries (children_excludes c))
    | NoExclusion => exclude
    end
  else exclude.

(** Lines 353 to 357. *)
Definition exclude_comments_key (exclude : Exclusion) : Exclusion :=
  if negb (exclusion_has FHIR_COMMENTS_FIELD_NAME exclude) then
    match exclude with
    | ExclusionSet names => ExclusionSet (set_add FHIR_COMMENTS_FIELD_NAME names)
    | ExclusionDict entries =>
        ExclusionDict (dict_set FHIR_COMMENTS_FIELD_NAME ExcludeAll entries)
    | NoExclusion => exclude
    end
  else exclude.

(** Lines 315 to 357: the [exclude] that [yaml] hands to
    [BaseModel.dict]. *)
Definition yaml_exclude (c : Class) (exclude : Exclusion) : Exclusion :=
  let exclude := exclude_resource_type exclude in
  let exclude_comments := exclusion_has FHIR_COMMENTS_FIELD_NAME exclude in
  if exclude_comments
  then exclude_comments_key (exclude_children c exclude)
  else exclude.

(** The object the caller passed as [exclude], after the call: a set
    is changed in place by [add], and left behind when [exclude] is
    rebound to a new mapping (line 348); a mapping is changed in place
    throughout. *)
Definition caller_exclude (c : Class) (exclude : Exclusion) : Exclusion :=
  match exclude with
  | NoExclusion => NoExclusion
  | ExclusionSet names =>
      let exclude := exclude_resource_type exclude in
      if exclusion_has FHIR_COMMENTS_FIELD_NAME exclude
         && Nat.ltb 0 (List.length (children_excludes c))
      then exclude
      else yaml_exclude c (ExclusionSet names)
  | ExclusionDict _ => yaml_exclude c exclude
  end.

Definition yaml (self : Instance) (include exclude : Exclusion)
    (by_alias skip_defaults : option bool) (exclude_unset exclude_defaults : bool)
    (exclude_none : option bool)
  : Result (list (string * value)) :=
  let by_alias := match by_alias with Some b => b | None => true end in
  let exclude_none := match exclude_none with Some b => b | None => true end in
  let exclude := yaml_exclude (inst_class self) exclude in
  result <- BaseModel_dict self include exclude by_alias skip_defaults
              exclude_unset exclude_defaults exclude_none ;;
  if has_resource_base (inst_class self)
  then rt <- resource_type_attr (inst_dict self) ;;
       Ok (dict_set "resourceType" rt result)
  else Ok result.
End Yaml.

(** * Properties *)

(** ** Induction principles *)

(** Nested induction: the hypothesis is available for every item of a
    list, tuple or dictionary and for every attribute of a model. *)
Section ValueInduction.
Variable P : value -> Prop.
Hypothesis HNone : P VNone.
Hypothesis HEllipsis : P VEllipsis.
Hypothesis HBool : forall b, P (VBool b).
Hypothesis HInt : forall n, P (VInt n).
Hypothesis HStr : forall s, P (VStr s).
Hypothesis HEnum : forall m v, P v -> P (VEnum m v).
Hypothesis HList : forall l, Forall P l -> P (VList l).
Hypothesis HTuple : forall l, Forall P l -> P (VTuple l).
Hypothesis HDict : forall d, Forall (fun kv => P (snd kv)) d -> P (VDict d).
Hypothesis HModel : forall c d, Forall (fun kv => P (snd kv)) d -> P (VModel c d).

Lemma value_nested_ind : forall v, P v.
Proof.
  fix IH 1.
  assert (IHl : forall l, Forall P l).
  { fix IHl 1. intros [|x l]; constructor; [apply IH | apply IHl]. }
  assert (IHd : forall d : list (string * value), Forall (fun kv => P (snd kv)) d).
  { fix IHd 1. intros [|[k x] d]; constructor; [apply IH | apply IHd]. }
  intros [ | | b | n | s | m v | l | l | d | c d ].
  - exact HNone.
  - exact HEllipsis.
  - apply HBool.
  - apply HInt.
  - apply HStr.
  - apply HEnum, IH.
  - apply HList, IHl.
  - apply HTuple, IHl.
  - apply HDict, IHd.
  - apply HModel, IHd.
Qed.
End ValueInduction.

(** The list walk of [prune_list] steps over one or two items. *)
Lemma list_two_step_ind (A : Type) (P : list A -> Prop) :
  P [] ->
  (forall x, P [x]) ->
  (forall x y l, P l -> P (y :: l) -> P (x :: y :: l)) ->
  forall l, P l.
Proof.
  intros H0 H1 H2 l.
  assert (H : P l /\ forall x, P (x :: l)).
  { induction l as [|y l [IHl IHyl]].
    - split; [exact H0 | exact H1].
    - split; [apply IHyl | intros x; apply H2; [exact IHl | apply IHyl]]. }
  apply H.
Qed.

Lemma is_None_true (v : value) : is_None v = true -> v = VNone.
Proof. destruct v; simpl; congruence. Qed.

Lemma length_zero_nil (A : Type) (l : list A) :
  Nat.eqb (List.length l) 0 = true -> l = [].
Proof. destruct l; simpl; [reflexivity | discriminate]. Qed.

(** ** Pruning *)

Lemma filter_empty_list_dict_list (l : list value) :
  filter_empty_list_dict (VList l) =
  match prune_list filter_empty_list_dict l with
  | [] => VNone
  | l' => VList l'
  end.
Proof.
  destruct l as [|x l]; [reflexivity|].
  cbn [filter_empty_list_dict List.length Nat.eqb].
  destruct (prune_list filter_empty_list_dict (x :: l)); reflexivity.
Qed.

Lemma filter_empty_list_dict_dict (d : list (string * value)) :
  filter_empty_list_dict (VDict d) =
  match prune_dict filter_empty_list_dict d with
  | [] => VNone
  | d' => VDict d'
  end.
Proof.
  destruct d as [|x d]; [reflexivity|].
  cbn [filter_empty_list_dict List.length Nat.eqb].
  destruct (prune_dict filter_empty_list_dict (x :: d)); reflexivity.
Qed.



Lemma prune_list_cons (f : value -> value) (x : value) (rest : list value) :
  prune_list f (x :: rest) =
  if is_None x then x :: prune_list f rest
  else if is_None (f x) then
    match rest with
    | [] => []
    | unvisited :: rest' => unvisited :: prune_list f rest'
    end
  else f x :: prune_list f rest.
Proof. reflexivity. Qed.

Lemma prune_dict_cons (f : value -> value) (k : string) (x : value)
    (rest : list (string * value)) :
  prune_dict f ((k, x) :: rest) =
  if is_None x then (k, x) :: prune_dict f rest
  else if is_None (f x) then prune_dict f rest
  else (k, f x) :: prune_dict f rest.
Proof. reflexivity. Qed.


Section PruneCounting.
Variable f : value -> value.
Let keeps (v : value) : Prop :=
  null_entries (f v) = null_entries v /\ (f v = VNone -> null_entries v = 0).





End PruneCounting.








(** C4.  Pruning is not idempotent: of two adjacent empty lists the
    loop deletes the first and never visits the second, which a second
    pass then removes. *)
Theorem filter_empty_list_dict_twice :
  filter_empty_list_dict (VList [VList []; VList []]) = VList [VList []]
  /\ filter_empty_list_dict (filter_empty_list_dict (VList [VList []; VList []])) = VNone.
Proof. split; reflexivity. Qed.

(** ** The list loop, with the iterator written out *)

Section EnumerateLoop.
Variable f : value -> value.

Lemma nth_error_middle (pre rest : list value) (x : value) :
  nth_error (pre ++ x :: rest) (List.length pre) = Some x.
Proof. induction pre; simpl; auto. Qed.

Lemma nth_error_end (pre : list value) :
  nth_error pre (List.length pre) = None.
Proof. induction pre; simpl; auto. Qed.

Lemma remove_at_middle (pre rest : list value) (x : value) :
  remove_at (List.length pre) (pre ++ x :: rest) = pre ++ rest.
Proof. induction pre; simpl; [reflexivity | f_equal; assumption]. Qed.

Lemma replace_at_middle (pre rest : list value) (x y : value) :
  replace_at (List.length pre) y (pre ++ x :: rest) = pre ++ y :: rest.
Proof. induction pre; simpl; [reflexivity | f_equal; assumption]. Qed.

Lemma length_snoc (pre : list value) (x : value) :
  List.length (pre ++ [x]) = S (List.length pre).
Proof. rewrite length_app. simpl. lia. Qed.

Lemma enumerate_loop_prune (fuel : nat) :
  forall pre rest : list value,
    List.length rest <= fuel ->
    enumerate_loop f fuel (List.length pre) (pre ++ rest) = pre ++ prune_list f rest.
Proof.
  induction fuel as [|fuel IH]; intros pre rest Hfuel.
  - destruct rest; [reflexivity | simpl in Hfuel; lia].
  - destruct rest as [|x rest].
    + simpl. rewrite app_nil_r, nth_error_end. reflexivity.
    + simpl in Hfuel. cbn [enumerate_loop]. rewrite nth_error_middle, prune_list_cons.
      assert (Hnext : forall y r, pre ++ y :: r = (pre ++ [y]) ++ r)
        by (intros y r; rewrite <- app_assoc; reflexivity).
      destruct (is_None x) eqn:Ex.
      * rewrite (Hnext x rest), <- (length_snoc pre x), IH by lia.
        rewrite <- app_assoc. reflexivity.
      * destruct (is_None (f x)) eqn:Efx.
        -- rewrite remove_at_middle. destruct rest as [|y rest].
           ++ rewrite app_nil_r. destruct fuel; [reflexivity|].
              cbn [enumerate_loop].
              replace (nth_error pre (S (List.length pre))) with (@None value); [reflexivity|].
              symmetry. apply nth_error_None. lia.
           ++ simpl in Hfuel. rewrite (Hnext y rest), <- (length_snoc pre y), IH by lia.
              rewrite <- app_assoc. reflexivity.
        -- rewrite replace_at_middle, (Hnext (f x) rest), <- (length_snoc pre (f x)), IH by lia.
           rewrite <- app_assoc. reflexivity.
Qed.

(** X5.  [prune_list] is the loop run on the whole list, from position
    0, until the iterator is exhausted. *)
Lemma enumerate_loop_is_prune_list (items : list value) :
  enumerate_loop f (List.length items) 0 items = prune_list f items.
Proof. exact (@enumerate_loop_prune (List.length items) [] items (le_n _)). Qed.
End EnumerateLoop.

(** ** Dictionaries *)

Section DictFacts.
Variable A : Type.
Implicit Types (d : list (string * A)) (k : string).

Lemma dict_get_del_same k d : dict_get k (dict_del k d) = None.
Proof.
  induction d as [|[k' v] d IH]; simpl; [reflexivity|].
  destruct (String.eqb k k') eqn:E; [exact IH|].
  simpl. rewrite E. exact IH.
Qed.

Lemma dict_get_del_other k k' d :
  k <> k' -> dict_get k (dict_del k' d) = dict_get k d.
Proof.
  intros Hne. induction d as [|[k0 v] d IH]; simpl; [reflexivity|].
  destruct (String.eqb k' k0) eqn:E'.
  - apply String.eqb_eq in E'. subst k0.
    destruct (String.eqb k k') eqn:E; [apply String.eqb_eq in E; contradiction | exact IH].
  - simpl. rewrite IH. reflexivity.
Qed.

Lemma dict_has_del_other k k' d :
  k <> k' -> dict_has k (dict_del k' d) = dict_has k d.
Proof. intros H. unfold dict_has. rewrite dict_get_del_other by exact H. reflexivity. Qed.

Lemma dict_has_true k d : dict_has k d = true -> exists v, dict_get k d = Some v.
Proof. unfold dict_has. destruct (dict_get k d) as [v|]; [eauto | discriminate]. Qed.

Lemma dict_has_false k d : dict_has k d = false -> dict_get k d = None.
Proof. unfold dict_has. destruct (dict_get k d); [discriminate | reflexivity]. Qed.
End DictFacts.

Lemma dict_get_None_del_other (k k' : string) (d : list (string * value)) :
  k <> k' -> dict_get_None k (dict_del k' d) = dict_get_None k d.
Proof. intros H. unfold dict_get_None. rewrite dict_get_del_other by exact H. reflexivity. Qed.

(** ** Construction *)

Lemma differs_from_default_false (v : value) (c : Class) :
  differs_from_default v (get_resource_type c) = false <-> v = default_tag c.
Proof.
  unfold default_tag. destruct (get_resource_type c) as [s|]; destruct v; simpl;
    split; intros H; try discriminate H; try reflexivity.
  - apply negb_false_iff, String.eqb_eq in H. subst. reflexivity.
  - injection H as ->. rewrite String.eqb_refl. reflexivity.
Qed.

(** The tag that [__init__] compares with the default, and the
    keyword arguments it hands on, in terms of the call's arguments. *)
Lemma check_resource_type_unfold (render : value -> string) (c : Class)
    (data : list (string * value)) :
  check_resource_type render c data =
  let taken :=
    dict_has "resourceType" data && negb (dict_has "resourceType" (__fields__ c)) in
  let tag :=
    if taken then dict_get_None "resourceType" data
    else dict_get_None "resource_type" data in
  let rest :=
    if taken then dict_del "resourceType" (dict_del "resource_type" data)
    else dict_del "resource_type" data in
  if negb (is_None tag) && differs_from_default tag (get_resource_type c)
  then Raise (ValidationError
                [mkErrorWrapper (WrongResourceType (wrong_resource_type_error render c tag))
                                "resource_type"] c)
  else Ok rest.
Proof.
  assert (Hne : "resourceType" <> "resource_type") by discriminate.
  unfold check_resource_type, dict_pop_None.
  rewrite (dict_has_del_other _ Hne), (dict_get_None_del_other _ Hne).
  cbv zeta.
  destruct (dict_has "resourceType" data && negb (dict_has "resourceType" (__fields__ c)));
    match goal with
    | |- context [negb (is_None ?t) && differs_from_default ?t ?d] =>
        destruct (negb (is_None t) && differs_from_default t d)
    end; reflexivity.
Qed.

(** C1, as the code has it.  Take a call that does not give a tag
    under both keys at once, where [resourceType] counts as a tag key
    only for a class that declares no field of that name (a class that
    declares one takes the entry as the field's value).  The tag is the
    entry under [resource_type], or else the one under [resourceType].
    When it is absent ([None]) or equal to the declared default, the
    check passes and the remaining arguments go on to the validation
    engine; any other tag raises a validation error with the single
    location [resource_type], whose message names the qualified class
    name, the expected tag and the given tag. *)
Theorem resource_type_check (render : value -> string) (c : Class)
    (data : list (string * value)) :
  let tag_key := negb (dict_has "resourceType" (__fields__ c)) in
  let tag :=
    if dict_has "resource_type" data then dict_get_None "resource_type" data
    else if tag_key then dict_get_None "resourceType" data
    else VNone in
  let rest :=
    if dict_has "resourceType" data && tag_key
    then dict_del "resourceType" (dict_del "resource_type" data)
    else dict_del "resource_type" data in
  dict_has "resource_type" data && (dict_has "resourceType" data && tag_key) = false ->
  (tag = VNone \/ tag = default_tag c ->
   check_resource_type render c data = Ok rest)
  /\ (tag <> VNone -> tag <> default_tag c ->
      exists e : PydanticValueError,
        check_resource_type render c data
        = Raise (ValidationError [mkErrorWrapper e "resource_type"] c)
        /\ err_code e = "wrong.resource_type"
        /\ error_message e
           = ("Wrong ResourceType: ``" ++ cls_module c ++ "." ++ cls_name c
              ++ "`` expects resource type ``" ++ format_default (get_resource_type c)
              ++ "``, but got ``" ++ format_value render tag
              ++ "``. Make sure resource type name is correct and right "
              ++ "ModelClass has been chosen.")%string).
Proof.
  intros tag_key tag rest Hone. rewrite check_resource_type_unfold. cbv zeta.
  fold tag_key. fold rest.
  assert (Htag : (if dict_has "resourceType" data && tag_key
                  then dict_get_None "resourceType" data
                  else dict_get_None "resource_type" data) = tag).
  { subst tag. destruct (dict_has "resource_type" data) eqn:Ert.
    - simpl in Hone. rewrite Hone. reflexivity.
    - assert (Hnone : dict_get_None "resource_type" data = VNone).
      { unfold dict_get_None. rewrite (dict_has_false _ _ Ert). reflexivity. }
      destruct (dict_has "resourceType" data) eqn:ErT; destruct tag_key; simpl;
        try reflexivity; try exact Hnone.
      unfold dict_get_None. rewrite (dict_has_false _ _ ErT). exact Hnone. }
  rewrite Htag. clearbody rest tag. split.
  - intros [H|H].
    + rewrite H. reflexivity.
    + apply differs_from_default_false in H. rewrite H, andb_false_r. reflexivity.
  - intros Hnone Hdiff.
    assert (H1 : is_None tag = false).
    { destruct (is_None tag) eqn:E; [apply is_None_true in E; contradiction | reflexivity]. }
    assert (H2 : differs_from_default tag (get_resource_type c) = true).
    { destruct (differs_from_default tag (get_resource_type c)) eqn:E; [reflexivity|].
      apply differs_from_default_false in E. contradiction. }
    rewrite H1, H2. simpl.
    eexists. split; [reflexivity|]. split; [reflexivity|].
    reflexivity.
Qed.

Lemma resource_type_check_witness :
  exists e : PydanticValueError,
    check_resource_type render_repr Patient [("resourceType", VStr "Observation")]
    = Raise (ValidationError [mkErrorWrapper e "resource_type"] Patient)
    /\ err_code e = "wrong.resource_type"
    /\ error_message e
       = "Wrong ResourceType: ``fhir.resources.patient.Patient`` expects resource type ``Patient``, but got ``Observation``. Make sure resource type name is correct and right ModelClass has been chosen.".
Proof.
  apply (proj2 (resource_type_check render_repr Patient
                  [("resourceType", VStr "Observation")] eq_refl)); discriminate.
Defined.

(** C1, counterexample.  A tag other than the default passes the check
    in two cases: given under [resource_type] while the default is given
    under [resourceType] in the same call, and given under
    [resourceType] to a class that declares a field of that name. *)
Lemma resource_type_check_passes_other_tag :
  (dict_get "resource_type"
     [("resource_type", VStr "Observation"); ("resourceType", VStr "Patient")]
   = Some (VStr "Observation")
   /\ get_resource_type Patient = Some "Patient"
   /\ check_resource_type render_repr Patient
        [("resource_type", VStr "Observation"); ("resourceType", VStr "Patient")]
      = Ok [])
  /\ (get_resource_type Tagged = Some "Tagged"
      /\ check_resource_type render_repr Tagged [("resourceType", VStr "Observation")]
         = Ok [("resourceType", VStr "Observation")]).
Proof. repeat split. Qed.

Lemma check_resource_type_rest (render : value -> string) (c : Class)
    (data rest : list (string * value)) :
  check_resource_type render c data = Ok rest ->
  dict_get "resource_type" rest = None
  /\ (dict_has "resourceType" (__fields__ c) = false -> dict_get "resourceType" rest = None).
Proof.
  assert (Hne : "resource_type" <> "resourceType") by discriminate.
  rewrite check_resource_type_unfold. cbv zeta.
  match goal with |- context [if ?b then Raise _ else _] => destruct b end;
    [discriminate|].
  destruct (dict_has "resourceType" data) eqn:Ehas;
    destruct (dict_has "resourceType" (__fields__ c)) eqn:Efield; simpl;
    intros H; injection H as <-.
  - split; [apply dict_get_del_same | discriminate].
  - split; [|intros _; apply dict_get_del_same].
    rewrite (dict_get_del_other _ Hne). apply dict_get_del_same.
  - split; [apply dict_get_del_same | discriminate].
  - split; [apply dict_get_del_same|]. intros _.
    rewrite dict_get_del_other by (intros E; apply Hne; symmetry; exact E).
    apply dict_has_false, Ehas.
Qed.

Lemma dict_del_absent (A : Type) (k : string) (d : list (string * A)) :
  dict_get k d = None -> dict_del k d = d.
Proof.
  induction d as [|[k0 w] d IH]; simpl; [reflexivity|].
  destruct (String.eqb k k0); [discriminate|]. intros H. rewrite (IH H). reflexivity.
Qed.

Lemma check_resource_type_others (render : value -> string) (c : Class)
    (data rest : list (string * value)) :
  check_resource_type render c data = Ok rest ->
  (dict_has "resourceType" (__fields__ c) = true ->
   dict_get "resourceType" rest = dict_get "resourceType" data)
  /\ forall k, k <> "resource_type" -> k <> "resourceType" ->
               dict_get k rest = dict_get k data.
Proof.
  rewrite check_resource_type_unfold. cbv zeta.
  match goal with |- context [if ?b then Raise _ else _] => destruct b end;
    [discriminate|].
  intros H. injection H as <-. split.
  - intros ->. rewrite andb_false_r. apply dict_get_del_other. discriminate.
  - intros k Hrt HrT.
    destruct (dict_has "resourceType" data && negb (dict_has "resourceType" (__fields__ c)));
      rewrite ?(dict_get_del_other _ HrT); apply (dict_get_del_other _ Hrt).
Qed.

Lemma check_resource_type_without_tag (render : value -> string) (c : Class)
    (rest : list (string * value)) :
  dict_get "resource_type" rest = None ->
  (dict_has "resourceType" (__fields__ c) = false -> dict_get "resourceType" rest = None) ->
  check_resource_type render c rest = Ok rest.
Proof.
  intros Hrt HrT. rewrite check_resource_type_unfold. cbv zeta.
  assert (Htaken : dict_has "resourceType" rest
                   && negb (dict_has "resourceType" (__fields__ c)) = false).
  { destruct (dict_has "resourceType" (__fields__ c)); [apply andb_false_r|].
    unfold dict_has. rewrite (HrT eq_refl). reflexivity. }
  rewrite Htaken. unfold dict_get_None. rewrite Hrt. cbn [is_None negb andb].
  rewrite (dict_del_absent _ _ Hrt). reflexivity.
Qed.

(** C10, as the code has it.  When construction succeeds, the
    instance is the one the validation engine builds from the arguments
    without the tag.  The arguments that reach the engine hold no entry
    under [resource_type], and none under [resourceType] unless the
    class declares a field of that name, in which case the entry is
    handed on as it is; every other entry is handed on unchanged; and
    constructing from the arguments without the tag gives the same
    instance.  So a supplied tag, which passed the check, is never
    stored: [resource_type] is what the engine stores when no tag is
    given. *)
Theorem init_supplied_tag_not_stored (render : value -> string)
    (BaseModel_init : Class -> list (string * value) -> Result (list (string * value)))
    (c : Class) (data attrs : list (string * value)) :
  __init__ render BaseModel_init c data = Ok attrs ->
  exists rest,
    check_resource_type render c data = Ok rest
    /\ BaseModel_init c rest = Ok attrs
    /\ dict_get "resource_type" rest = None
    /\ (dict_has "resourceType" (__fields__ c) = false ->
        dict_get "resourceType" rest = None)
    /\ (dict_has "resourceType" (__fields__ c) = true ->
        dict_get "resourceType" rest = dict_get "resourceType" data)
    /\ (forall k, k <> "resource_type" -> k <> "resourceType" ->
                  dict_get k rest = dict_get k data)
    /\ __init__ render BaseModel_init c rest = Ok attrs.
Proof.
  intros Hinit. unfold __init__ in Hinit.
  destruct (check_resource_type render c data) as [rest|e] eqn:Hcheck;
    [|discriminate Hinit].
  cbn [bind] in Hinit.
  destruct (check_resource_type_rest _ _ _ Hcheck) as [Hrt HrT].
  destruct (check_resource_type_others _ _ _ Hcheck) as [Hdeclared Hothers].
  exists rest. repeat split; try assumption.
  unfold __init__. rewrite (check_resource_type_without_tag render c rest Hrt HrT).
  exact Hinit.
Qed.

Lemma init_supplied_tag_not_stored_witness :
  exists rest,
    check_resource_type render_repr Patient
      [("resourceType", VStr "Patient"); ("active", VBool true)] = Ok rest
    /\ simple_engine Patient rest
       = Ok [("resource_type", VStr "Patient"); (FHIR_COMMENTS_FIELD_NAME, VNone);
             ("active", VBool true); ("active__ext", VNone); ("name", VNone)]
    /\ dict_get "resource_type" rest = None
    /\ (dict_has "resourceType" (__fields__ Patient) = false ->
        dict_get "resourceType" rest = None)
    /\ (dict_has "resourceType" (__fields__ Patient) = true ->
        dict_get "resourceType" rest
        = dict_get "resourceType" [("resourceType", VStr "Patient"); ("active", VBool true)])
    /\ (forall k, k <> "resource_type" -> k <> "resourceType" ->
                  dict_get k rest
                  = dict_get k [("resourceType", VStr "Patient"); ("active", VBool true)])
    /\ __init__ render_repr simple_engine Patient rest
       = Ok [("resource_type", VStr "Patient"); (FHIR_COMMENTS_FIELD_NAME, VNone);
             ("active", VBool true); ("active__ext", VNone); ("name", VNone)].
Proof.
  apply (@init_supplied_tag_not_stored render_repr simple_engine Patient
           [("resourceType", VStr "Patient"); ("active", VBool true)]).
  reflexivity.
Defined.

(** C10, counterexample.  For a class that declares a field named
    [resourceType], the entry given under that key is not removed: it
    reaches the validation engine and is stored.  And what is stored
    under [resource_type] is the engine's business: with a post root
    validator that rewrites it, construction succeeds and the attribute
    is not the declared default. *)
Lemma init_keeps_declared_resourceType :
  (check_resource_type render_repr Tagged [("resourceType", VStr "Observation")]
   = Ok [("resourceType", VStr "Observation")]
   /\ __init__ render_repr simple_engine Tagged [("resourceType", VStr "Observation")]
      = Ok [("resource_type", VStr "Tagged"); (FHIR_COMMENTS_FIELD_NAME, VNone);
            ("resourceType", VStr "Observation")])
  /\ (__init__ render_repr (hook_engine (dict_set "resource_type" (VStr "Person"))) Patient
        [("resourceType", VStr "Patient"); ("active", VBool true)]
      = Ok [("resource_type", VStr "Person"); (FHIR_COMMENTS_FIELD_NAME, VNone);
            ("active", VBool true); ("active__ext", VNone); ("name", VNone)]
      /\ VStr "Person" <> default_tag Patient).
Proof. repeat split; try reflexivity. discriminate. Qed.

(** ** Hook registration *)

Lemma dict_get_set_same (A : Type) (k : string) (v : A) (d : list (string * A)) :
  dict_get k (dict_set k v d) = Some v.
Proof.
  induction d as [|[k' w] d IH]; simpl.
  - rewrite String.eqb_refl. reflexivity.
  - destruct (String.eqb k k') eqn:E; simpl; rewrite E; [reflexivity | exact IH].
Qed.

(** C6.  A validator whose name is already that of a method or
    attribute of the class or of one of its ancestors, or that of a
    declared field, is refused with a configuration error, and the call
    leaves the class as it was: the two hook lists, and everything else,
    are unchanged. *)
Theorem add_root_validator_name_collision (st : ClassState) (validator : Callable)
    (pre skip_on_failure allow_reuse : bool) (index : Z) :
  (exists d, In d (st_dict st :: st_bases_dicts st)
             /\ dict_has (fn_name (underlying_function validator)) d = true)
  \/ dict_has (fn_name (underlying_function validator)) (__fields__ (st_class st)) = true ->
  exists msg,
    add_root_validator st validator pre skip_on_failure allow_reuse index
    = (Raise (ConfigError msg), st)
    /\ st_pre_root_validators
         (snd (add_root_validator st validator pre skip_on_failure allow_reuse index))
       = st_pre_root_validators st
    /\ st_post_root_validators
         (snd (add_root_validator st validator pre skip_on_failure allow_reuse index))
       = st_post_root_validators st.
Proof.
  intros H. unfold add_root_validator.
  destruct (existsb (dict_has (fn_name (underlying_function validator)))
              (st_dict st :: st_bases_dicts st)) eqn:Eattr.
  - eexists. repeat split.
  - destruct H as [[d [Hin Hd]]|H].
    + assert (Hex : existsb (dict_has (fn_name (underlying_function validator)))
                      (st_dict st :: st_bases_dicts st) = true)
        by (apply existsb_exists; exists d; split; assumption).
      rewrite Hex in Eattr. discriminate Eattr.
    + rewrite H. eexists. repeat split.
Qed.

Lemma add_root_validator_name_collision_witness :
  exists msg,
    add_root_validator Patient_state
      (PlainFunction (mkFunction "active" "app.validators" "active" ["cls"; "values"]))
      false false true (-1)
    = (Raise (ConfigError msg), Patient_state)
    /\ st_pre_root_validators
         (snd (add_root_validator Patient_state
                 (PlainFunction (mkFunction "active" "app.validators" "active" ["cls"; "values"]))
                 false false true (-1)))
       = st_pre_root_validators Patient_state
    /\ st_post_root_validators
         (snd (add_root_validator Patient_state
                 (PlainFunction (mkFunction "active" "app.validators" "active" ["cls"; "values"]))
                 false false true (-1)))
       = st_post_root_validators Patient_state.
Proof.
  apply (add_root_validator_name_collision Patient_state
           (PlainFunction (mkFunction "active" "app.validators" "active" ["cls"; "values"]))
           false false true (-1)).
  right. reflexivity.
Defined.

Lemma root_validator_outcome (allow_reuse : bool) (func : Function) (funcs : list string) :
  (exists funcs', root_validator allow_reuse func funcs = Ok funcs')
  \/ (exists msg, root_validator allow_reuse func funcs = Raise (ConfigError msg)).
Proof.
  unfold root_validator. destruct allow_reuse; [left; eauto|].
  destruct (existsb _ funcs); [right | left]; eauto.
Qed.

(** C7, as the code has it.  Of a validator that passes the name
    checks, the signature is checked for two things: it has exactly two
    parameters, and the first is named [cls].  One that fails either is
    refused with a configuration error and is not registered: the hook
    lists and the attributes of the class are unchanged.  One with two
    parameters of which the first is [cls] is registered, whatever the
    name of the second, unless pydantic's [root_validator] refuses the
    function as a duplicate ([allow_reuse] unset and the function
    already in use); then a configuration error is raised and the class
    is as it was. *)
Theorem add_root_validator_signature (st : ClassState) (validator : Callable)
    (pre skip_on_failure allow_reuse : bool) (index : Z) :
  let func := underlying_function validator in
  let outcome := add_root_validator st validator pre skip_on_failure allow_reuse index in
  existsb (dict_has (fn_name func)) (st_dict st :: st_bases_dicts st) = false ->
  dict_has (fn_name func) (__fields__ (st_class st)) = false ->
  (List.length (fn_params func) <> 2 \/ hd "" (fn_params func) <> "cls" ->
   exists msg,
     fst outcome = Raise (ConfigError msg)
     /\ st_pre_root_validators (snd outcome) = st_pre_root_validators st
     /\ st_post_root_validators (snd outcome) = st_post_root_validators st
     /\ st_dict (snd outcome) = st_dict st)
  /\ (forall second, fn_params func = ["cls"; second] ->
      if negb allow_reuse
         && existsb (String.eqb (fn_module func ++ "." ++ fn_qualname func)%string)
                    (st_FUNCS st)
      then exists msg, outcome = (Raise (ConfigError msg), st)
      else
        fst outcome = Ok tt
        /\ dict_get (fn_name func) (st_dict (snd outcome))
           = Some (InjectedRootValidator func pre skip_on_failure true)
        /\ st_pre_root_validators (snd outcome)
           = (if pre
              then if (index =? -1)%Z then st_pre_root_validators st ++ [func]
                   else list_insert index func (st_pre_root_validators st)
              else st_pre_root_validators st)
        /\ st_post_root_validators (snd outcome)
           = (if pre then st_post_root_validators st
              else if (index =? -1)%Z
                   then st_post_root_validators st ++ [(skip_on_failure, func)]
                   else list_insert index (skip_on_failure, func)
                          (st_post_root_validators st))).
Proof.
  intros func outcome Hattr Hfield. subst outcome.
  unfold add_root_validator. fold func. rewrite Hattr, Hfield. split.
  - intros Hbad.
    destruct (root_validator_outcome allow_reuse func (st_FUNCS st))
      as [[funcs ->]|[msg ->]]; [|exists msg; repeat split].
    destruct (Nat.eqb (List.length (fn_params func)) 2) eqn:Elen; simpl.
    + destruct (String.eqb (hd "" (fn_params func)) "cls") eqn:Ecls; simpl.
      * apply Nat.eqb_eq in Elen. apply String.eqb_eq in Ecls.
        destruct Hbad; contradiction.
      * eexists. repeat split.
    + eexists. repeat split.
  - intros second Hparams. unfold root_validator.
    destruct allow_reuse; cbn [negb andb].
    + rewrite Hparams. simpl. repeat split. apply dict_get_set_same.
    + destruct (existsb _ (st_FUNCS st)).
      * eexists. reflexivity.
      * rewrite Hparams. simpl. repeat split. apply dict_get_set_same.
Qed.

Lemma add_root_validator_signature_witness :
  exists msg,
    fst (add_root_validator Patient_state
           (PlainFunction (mkFunction "check" "app.validators" "check" ["self"; "values"]))
           true false true (-1))
    = Raise (ConfigError msg)
    /\ st_pre_root_validators
         (snd (add_root_validator Patient_state
                 (PlainFunction (mkFunction "check" "app.validators" "check" ["self"; "values"]))
                 true false true (-1))) = []
    /\ st_post_root_validators
         (snd (add_root_validator Patient_state
                 (PlainFunction (mkFunction "check" "app.validators" "check" ["self"; "values"]))
                 true false true (-1))) = []
    /\ st_dict
         (snd (add_root_validator Patient_state
                 (PlainFunction (mkFunction "check" "app.validators" "check" ["self"; "values"]))
                 true false true (-1))) = [("elements_sequence", OtherAttribute)].
Proof.
  apply (proj1 (@add_root_validator_signature Patient_state
           (PlainFunction (mkFunction "check" "app.validators" "check" ["self"; "values"]))
           true false true (-1) eq_refl eq_refl)).
  right. simpl. discriminate.
Defined.

(** A function with the right signature that is already in use, and
    registered without [allow_reuse]: refused as a duplicate. *)
Example add_root_validator_duplicate :
  exists msg,
    add_root_validator (with_FUNCS Patient_state ["app.validators.check"])
      (PlainFunction (mkFunction "check" "app.validators" "check" ["cls"; "values"]))
      true false false (-1)
    = (Raise (ConfigError msg), with_FUNCS Patient_state ["app.validators.check"]).
Proof. eexists. reflexivity. Qed.

(** C7, counterexample.  A function whose second parameter is not named
    [values] is accepted and becomes a pre-validation hook. *)
Lemma add_root_validator_accepts_other_name :
  add_root_validator Patient_state
    (PlainFunction (mkFunction "check" "app.validators" "check" ["cls"; "data"]))
    true false true (-1)
  = (Ok tt,
     mkClassState Patient
       [("elements_sequence", OtherAttribute);
        ("check", InjectedRootValidator
                    (mkFunction "check" "app.validators" "check" ["cls"; "data"])
                    true false true)]
       [[("dict", OtherAttribute); ("json", OtherAttribute);
         ("add_root_validator", OtherAttribute)]]
       [mkFunction "check" "app.validators" "check" ["cls"; "data"]] [] []).
Proof. reflexivity. Qed.

(** ** Serialisation *)

Lemma dict_get_converted_attrs (convert : value -> Result value)
    (k : string) (attrs : list (string * value)) :
  dict_get k (converted_attrs convert attrs)
  = match dict_get k attrs with
    | Some v => Some (convert v)
    | None => None
    end.
Proof.
  induction attrs as [|[k' v] attrs IH]; simpl; [reflexivity|].
  destruct (String.eqb k k'); [reflexivity | exact IH].
Qed.

Section OrderedDictFacts.
Variable A : Type.
Implicit Types (d pairs : list (string * A)) (k : string).

Lemma dict_get_set_other k k' (v : A) d :
  k <> k' -> dict_get k (dict_set k' v d) = dict_get k d.
Proof.
  intros Hne. induction d as [|[k0 w] d IH]; simpl.
  - destruct (String.eqb k k') eqn:E; [apply String.eqb_eq in E; contradiction | reflexivity].
  - destruct (String.eqb k' k0) eqn:E'; simpl.
    + apply String.eqb_eq in E'. subst k0.
      destruct (String.eqb k k') eqn:E; [apply String.eqb_eq in E; contradiction | reflexivity].
    + rewrite IH. reflexivity.
Qed.

Lemma dict_keys_set k (v : A) d :
  dict_keys (dict_set k v d)
  = if dict_has k d then dict_keys d else dict_keys d ++ [k].
Proof.
  unfold dict_has, dict_keys. induction d as [|[k0 w] d IH]; simpl; [reflexivity|].
  destruct (String.eqb k k0) eqn:E; simpl.
  - apply String.eqb_eq in E. subst. reflexivity.
  - rewrite IH. destruct (dict_get k d); reflexivity.
Qed.

(** The first key of a dictionary stays first whatever is set later. *)
Lemma fold_insert_head pairs : forall k (v : A) d,
  exists v' d', fold_left (@insert_pair A) pairs ((k, v) :: d) = (k, v') :: d'.
Proof.
  induction pairs as [|[k1 v1] pairs IH]; intros k v d; simpl.
  - eauto.
  - unfold insert_pair at 2. simpl. destruct (String.eqb k1 k); apply IH.
Qed.

Lemma OrderedDict_head k (v : A) pairs :
  exists v' d', OrderedDict ((k, v) :: pairs) = (k, v') :: d'.
Proof. unfold OrderedDict. simpl. apply (fold_insert_head pairs k v []). Qed.

Lemma fold_insert_keys pairs : forall d k,
  In k (dict_keys (fold_left (@insert_pair A) pairs d)) ->
  In k (dict_keys d) \/ In k (map fst pairs).
Proof.
  induction pairs as [|[k1 v1] pairs IH]; intros d k H; simpl in *; [left; exact H|].
  destruct (IH _ _ H) as [H'|H']; [|right; right; exact H'].
  unfold insert_pair in H'. simpl in H'. rewrite dict_keys_set in H'.
  destruct (dict_has k1 d); [left; exact H'|].
  apply in_app_or in H'. destruct H' as [H'|[H'|[]]]; [left; exact H' | right; left; exact H'].
Qed.

Lemma OrderedDict_keys pairs k :
  In k (dict_keys (OrderedDict pairs)) -> In k (map fst pairs).
Proof.
  intros H. destruct (fold_insert_keys pairs [] k H) as [[]|H']. exact H'.
Qed.

Lemma dict_get_app k d d' :
  dict_get k (d ++ d')
  = match dict_get k d with Some v => Some v | None => dict_get k d' end.
Proof.
  induction d as [|[k0 w] d IH]; simpl; [reflexivity|].
  destruct (String.eqb k k0); [reflexivity | exact IH].
Qed.

(** A key's value in [OrderedDict(pairs)] is the one of its last pair. *)
Lemma fold_insert_get pairs : forall d k,
  dict_get k (fold_left (@insert_pair A) pairs d)
  = match dict_get k (rev pairs) with Some v => Some v | None => dict_get k d end.
Proof.
  induction pairs as [|[k1 v1] pairs IH]; intros d k; simpl; [reflexivity|].
  rewrite IH, dict_get_app. destruct (dict_get k (rev pairs)); [reflexivity|].
  unfold insert_pair. simpl. destruct (String.eqb k k1) eqn:E.
  - apply String.eqb_eq in E. subst. apply dict_get_set_same.
  - apply dict_get_set_other. intros ->. rewrite String.eqb_refl in E. discriminate E.
Qed.

Lemma dict_get_OrderedDict pairs k :
  dict_get k (OrderedDict pairs) = dict_get k (rev pairs).
Proof.
  unfold OrderedDict. rewrite (fold_insert_get pairs [] k).
  destruct (dict_get k (rev pairs)); reflexivity.
Qed.

Lemma dict_get_In k (v : A) d : dict_get k d = Some v -> In (k, v) d.
Proof.
  induction d as [|[k0 w] d IH]; simpl; [discriminate|].
  destruct (String.eqb k k0) eqn:E.
  - apply String.eqb_eq in E. intros H. injection H as ->. subst. left; reflexivity.
  - intros H. right. apply IH, H.
Qed.

Lemma dict_get_NoDup k (v : A) d :
  NoDup (map fst d) -> In (k, v) d -> dict_get k d = Some v.
Proof.
  induction d as [|[k0 w] d IH]; simpl; intros Hnd Hin; [destruct Hin|].
  inversion Hnd as [|? ? Hnotin Hnd']; subst.
  destruct Hin as [Heq|Hin].
  - injection Heq as -> ->. rewrite String.eqb_refl. reflexivity.
  - destruct (String.eqb k k0) eqn:E.
    + apply String.eqb_eq in E. subst k0. exfalso. apply Hnotin.
      apply (in_map fst) in Hin. exact Hin.
    + apply IH; assumption.
Qed.
End OrderedDictFacts.

Lemma bind_Ok (A B : Type) (r : Result A) (k : A -> Result B) (b : B) :
  bind r k = Ok b -> exists a, r = Ok a /\ k a = Ok b.
Proof. destruct r as [a|e]; simpl; [eauto | discriminate]. Qed.

Tactic Notation "bind_inv" hyp(H) "as" ident(a) ident(Ha) :=
  apply bind_Ok in H; destruct H as [a [Ha H]].

Section IterationKeys.
Variable c : Class.
Variables by_alias exclude_none exclude_comments : bool.
Variable attrs : list (string * value).
Variable converted : list (string * Result value).

Lemma emit_extension_keys (field_key : string) (pairs : list (string * value)) (k : string) :
  emit_extension c by_alias attrs converted field_key = Ok pairs ->
  In k (map fst pairs) ->
  if by_alias
  then exists ext_field,
         dict_get (field_key ++ "__ext")%string (__fields__ c) = Some ext_field
         /\ k = output_key true (field_alias ext_field) (field_key ++ "__ext")%string
  else k = (field_key ++ "__ext")%string.
Proof.
  unfold emit_extension. intros H Hin.
  destruct (negb (is_None (dict_get_None (field_key ++ "__ext") attrs)));
    [|injection H as <-; destruct Hin].
  bind_inv H as key Hkey. bind_inv H as ext_val Hext.
  destruct (negb (is_None ext_val)); [|injection H as <-; destruct Hin].
  bind_inv H as n Hn.
  destruct (Nat.ltb 0 n); injection H as <-; [|destruct Hin].
  destruct Hin as [<-|[]]. simpl.
  destruct by_alias.
  - bind_inv Hkey as ext_field Hfield. injection Hkey as <-. unfold dict_item in Hfield.
    destruct (dict_get (field_key ++ "__ext") (__fields__ c)) as [f|] eqn:Ef;
      [|discriminate Hfield].
    injection Hfield as ->. exists ext_field. split; [exact Ef | reflexivity].
  - injection Hkey as <-. reflexivity.
Qed.

Lemma emit_element_keys (prop_name : string) (pairs : list (string * value)) (k : string) :
  emit_element c by_alias exclude_none attrs converted prop_name = Ok pairs ->
  In k (map fst pairs) ->
  exists field_key field,
    element_field c prop_name = Some (field_key, field)
    /\ (k = output_key by_alias (field_alias field) field_key
        \/ (field_primitive field = true
            /\ if by_alias
               then exists ext_field,
                      dict_get (field_key ++ "__ext")%string (__fields__ c) = Some ext_field
                      /\ k = output_key true (field_alias ext_field)
                                        (field_key ++ "__ext")%string
               else k = (field_key ++ "__ext")%string)).
Proof.
  unfold emit_element, element_field, dict_item. intros H Hin.
  destruct (dict_get prop_name (cls_alias_mapping c)) as [field_key|];
    cbn [bind] in H; [|discriminate H].
  destruct (dict_get field_key (__fields__ c)) as [field|];
    cbn [bind] in H; [|discriminate H].
  exists field_key, field. split; [reflexivity|].
  bind_inv H as v Hv. bind_inv H as ext Hext. injection H as <-.
  rewrite map_app in Hin. apply in_app_or in Hin. destruct Hin as [Hin|Hin].
  - left. destruct (negb (is_None v) || negb exclude_none && is_None v);
      [destruct Hin as [<-|[]]; reflexivity | destruct Hin].
  - right. destruct (field_primitive field).
    + split; [reflexivity|]. eapply emit_extension_keys; eassumption.
    + injection Hext as <-. destruct Hin.
Qed.

Lemma emit_elements_keys (props : list string) : forall pairs k,
  emit_elements c by_alias exclude_none attrs converted props = Ok pairs ->
  In k (map fst pairs) ->
  exists prop_name field_key field,
    In prop_name props
    /\ element_field c prop_name = Some (field_key, field)
    /\ (k = output_key by_alias (field_alias field) field_key
        \/ (field_primitive field = true
            /\ if by_alias
               then exists ext_field,
                      dict_get (field_key ++ "__ext")%string (__fields__ c) = Some ext_field
                      /\ k = output_key true (field_alias ext_field)
                                        (field_key ++ "__ext")%string
               else k = (field_key ++ "__ext")%string)).
Proof.
  induction props as [|p props IH]; simpl; intros pairs k H Hin.
  - injection H as <-. destruct Hin.
  - bind_inv H as first Hfirst. bind_inv H as others Hothers. injection H as <-.
    rewrite map_app in Hin. apply in_app_or in Hin. destruct Hin as [Hin|Hin].
    + destruct (@emit_element_keys p first k Hfirst Hin) as [fk [f [Hf Hk]]].
      exists p, fk, f. auto.
    + destruct (IH _ _ Hothers Hin) as [p' [fk [f [Hp [Hf Hk]]]]].
      exists p', fk, f. auto.
Qed.

(** What [_fhir_iter] yields: the type tag first when the class has
    the resource base, and otherwise only declared elements, extension
    companions and the comments. *)
Lemma _fhir_iter_shape (pairs : list (string * value)) :
  _fhir_iter c by_alias exclude_none exclude_comments attrs converted = Ok pairs ->
  if has_resource_base c
  then exists rt rest,
         dict_get "resource_type" attrs = Some rt /\ pairs = ("resourceType", rt) :: rest
  else forall k, In k (map fst pairs) ->
         field_output_key c by_alias k \/ k = FHIR_COMMENTS_FIELD_NAME.
Proof.
  unfold _fhir_iter. intros H. bind_inv H as tag Htag. bind_inv H as elements Helements.
  injection H as <-.
  destruct (has_resource_base c).
  - bind_inv Htag as rt Hrt. injection Htag as <-. unfold resource_type_attr in Hrt.
    destruct (dict_get "resource_type" attrs) as [rt'|]; [|discriminate Hrt].
    injection Hrt as ->. simpl. eauto.
  - injection Htag as <-. simpl. intros k Hin.
    rewrite map_app in Hin. apply in_app_or in Hin. destruct Hin as [Hin|Hin].
    + left. destruct (@emit_elements_keys _ elements k Helements Hin) as [p [fk [f [Hp [Hf Hk]]]]].
      exists p, fk, f. auto.
    + right.
      destruct (negb (is_None (dict_get_None FHIR_COMMENTS_FIELD_NAME attrs))
                && negb exclude_comments); [destruct Hin as [<-|[]]; reflexivity | destruct Hin].
Qed.
End IterationKeys.

(** C9.  Extra keyword arguments change nothing but the log: the
    outcome of [dict], a mapping or an exception, is the one of the call
    without them, and one warning is logged when there is at least one
    extra argument, none otherwise. *)
Theorem dict_ignores_extra_arguments (Any : Type) (self : Instance)
    (by_alias exclude_none exclude_comments : bool)
    (pydantic_extra : list (string * Any)) :
  snd (dict self by_alias exclude_none exclude_comments pydantic_extra)
  = snd (dict self by_alias exclude_none exclude_comments (@nil (string * Any)))
  /\ fst (dict self by_alias exclude_none exclude_comments pydantic_extra)
     = match pydantic_extra with
       | [] => []
       | _ :: _ => [dict_warning (inst_class self)]
       end
  /\ fst (dict self by_alias exclude_none exclude_comments (@nil (string * Any))) = [].
Proof.
  split; [reflexivity|]. split; [|reflexivity].
  destruct pydantic_extra; reflexivity.
Qed.

(** C5, as the code has it.  For a class with the resource base, the
    first key of the mapping is [resourceType].  For a class without it
    no type tag is emitted, whatever the flags: the key [resourceType]
    is among the keys of the mapping only when it is the output key of a
    declared element of the class or of an extension companion. *)
Theorem dict_resource_type_key (Any : Type) (self : Instance)
    (by_alias exclude_none exclude_comments : bool)
    (pydantic_extra : list (string * Any)) (m : list (string * value)) :
  snd (dict self by_alias exclude_none exclude_comments pydantic_extra) = Ok m ->
  (has_resource_base (inst_class self) = true ->
   exists v rest, m = ("resourceType", v) :: rest)
  /\ (has_resource_base (inst_class self) = false ->
      In "resourceType" (dict_keys m) ->
      field_output_key (inst_class self) by_alias "resourceType").
Proof.
  unfold dict, dict_pairs. simpl. intros H. bind_inv H as pairs Hpairs. injection H as <-.
  pose proof (@_fhir_iter_shape _ _ _ _ _ _ pairs Hpairs) as Hshape.
  split; intros Hbase; rewrite Hbase in Hshape.
  - destruct Hshape as [rt [rest [_ ->]]].
    destruct (OrderedDict_head "resourceType" rt rest) as [v' [d' ->]]. eauto.
  - intros Hin. apply OrderedDict_keys in Hin.
    destruct (Hshape _ Hin) as [Hk|Hk]; [exact Hk | discriminate Hk].
Qed.

(** ** A record whose only populated field is an empty list *)

Lemma ext_key_not_resource_type (field_key : string) :
  (field_key ++ "__ext")%string <> "resource_type".
Proof.
  intros H.
  do 13 (destruct field_key as [|? field_key]; simpl in H;
         [discriminate H | injection H as _ H]).
  destruct field_key; simpl in H; discriminate H.
Qed.

Section EmptyListField.
Variable c : Class.
Variables by_alias exclude_none exclude_comments : bool.
Variable attrs : list (string * value).
Variable k : string.
Hypothesis Hk : dict_get k attrs = Some (VList []).
Hypothesis Hdeclared : dict_has k (__fields__ c) = true.
Hypothesis Hothers :
  forall k', k' <> k -> k' <> "resource_type" -> dict_get_None k' attrs = VNone.

Let converted : list (string * Result value) :=
  converted_attrs (_fhir_get_value c by_alias exclude_none exclude_comments) attrs.

Lemma converted_value_empty_list :
  converted_value converted k = Ok (collapse_empty exclude_none (VList [])).
Proof.
  unfold converted_value, converted. rewrite dict_get_converted_attrs, Hk. reflexivity.
Qed.

Lemma emit_extension_empty_list (field_key : string) :
  emit_extension c by_alias attrs converted field_key = Ok [].
Proof.
  unfold emit_extension.
  destruct (String.eqb (field_key ++ "__ext") k) eqn:E.
  - apply String.eqb_eq in E. rewrite E.
    unfold dict_get_None at 1. rewrite Hk. cbn [is_None negb].
    destruct (dict_has_true _ _ Hdeclared) as [f Hf].
    assert (Hkey : exists key,
               (if by_alias
                then ext_field <- dict_item k (__fields__ c) ;;
                     Ok (output_key true (field_alias ext_field) k)
                else Ok k) = Ok key).
    { destruct by_alias; [|eauto]. unfold dict_item. rewrite Hf. cbn [bind]. eauto. }
    destruct Hkey as [key ->]. cbn [bind].
    rewrite converted_value_empty_list. cbn [bind].
    destruct exclude_none; reflexivity.
  - assert (Hne : (field_key ++ "__ext")%string <> k).
    { intros Heq. rewrite Heq, String.eqb_refl in E. discriminate E. }
    rewrite (Hothers Hne (@ext_key_not_resource_type field_key)). reflexivity.
Qed.

Let empty_list_pair := element_pair c by_alias k.

Lemma emit_element_empty_list (prop_name field_key : string) (field : ModelField) :
  element_field c prop_name = Some (field_key, field) ->
  field_key <> "resource_type" ->
  emit_element c by_alias exclude_none attrs converted prop_name
  = Ok (if exclude_none then [] else empty_list_pair prop_name).
Proof.
  intros Hfield Hrt. unfold empty_list_pair, element_pair. rewrite Hfield.
  unfold element_field in Hfield. unfold emit_element, dict_item.
  destruct (dict_get prop_name (cls_alias_mapping c)) as [fk|]; [|discriminate Hfield].
  cbn [bind].
  destruct (dict_get fk (__fields__ c)) as [f|]; [|discriminate Hfield].
  injection Hfield as -> ->. cbn [bind].
  assert (Hext : (if field_primitive field
                  then emit_extension c by_alias attrs converted field_key
                  else Ok []) = Ok []).
  { destruct (field_primitive field); [apply emit_extension_empty_list | reflexivity]. }
  destruct (String.eqb field_key k) eqn:E.
  - apply String.eqb_eq in E. subst field_key.
    unfold dict_get_None. rewrite Hk. cbn [is_None negb].
    rewrite converted_value_empty_list. cbn [bind]. rewrite Hext.
    destruct exclude_none; reflexivity.
  - assert (Hne : field_key <> k).
    { intros Heq. rewrite Heq, String.eqb_refl in E. discriminate E. }
    rewrite (Hothers Hne Hrt). cbn [is_None negb bind]. rewrite Hext.
    destruct exclude_none; reflexivity.
Qed.

Lemma emit_elements_empty_list (props : list string) :
  (forall prop_name, In prop_name props ->
     exists field_key field,
       element_field c prop_name = Some (field_key, field)
       /\ field_key <> "resource_type") ->
  emit_elements c by_alias exclude_none attrs converted props
  = Ok (if exclude_none then [] else flat_map empty_list_pair props).
Proof.
  induction props as [|p props IH]; intros Hwf.
  - destruct exclude_none; reflexivity.
  - destruct (Hwf p (or_introl eq_refl)) as [fk [f [Hf Hrt]]].
    cbn [emit_elements]. rewrite (emit_element_empty_list _ Hf Hrt).
    rewrite IH by (intros q Hq; apply Hwf; right; exact Hq).
    cbn [bind]. destruct exclude_none; reflexivity.
Qed.

Lemma _fhir_iter_empty_list (rt : value) :
  (forall prop_name, In prop_name (cls_elements_sequence c) ->
     exists field_key field,
       element_field c prop_name = Some (field_key, field)
       /\ field_key <> "resource_type") ->
  dict_get "resource_type" attrs = Some rt ->
  _fhir_iter c by_alias exclude_none exclude_comments attrs converted
  = Ok ((if has_resource_base c then [("resourceType", rt)] else [])
        ++ (if exclude_none then [] else flat_map empty_list_pair (cls_elements_sequence c))
        ++ comments_pair exclude_comments k).
Proof.
  intros Hwf Hrt. unfold _fhir_iter, resource_type_attr.
  rewrite Hrt, (@emit_elements_empty_list _ Hwf).
  assert (Hcomments :
            (if negb (is_None (dict_get_None FHIR_COMMENTS_FIELD_NAME attrs))
                && negb exclude_comments
             then [(FHIR_COMMENTS_FIELD_NAME,
                    dict_get_None FHIR_COMMENTS_FIELD_NAME attrs)]
             else [])
            = comments_pair exclude_comments k).
  { unfold comments_pair. destruct (String.eqb k FHIR_COMMENTS_FIELD_NAME) eqn:E.
    - apply String.eqb_eq in E. rewrite <- E. unfold dict_get_None. rewrite Hk.
      reflexivity.
    - assert (Hne : FHIR_COMMENTS_FIELD_NAME <> k).
      { intros Heq. rewrite <- Heq, String.eqb_refl in E. discriminate E. }
      rewrite (Hothers Hne) by discriminate. reflexivity. }
  destruct (has_resource_base c); cbn [bind]; rewrite Hcomments; reflexivity.
Qed.
End EmptyListField.

(** C3, as the code has it.  Take a record whose only populated
    attribute, besides its type tag, is a declared field [k] holding an
    empty list.  With [exclude_none] the field is omitted: the mapping
    holds nothing but the type tag of a resource, except that the
    comments field is emitted as it is when comments are not excluded.
    Without [exclude_none] the mapping is made of the type tag, then one
    entry for every element under its output key ([None] for an element
    that is not set, the empty list itself for [k] when it is an
    element), then the comments field in the same case as before: an
    extension companion or any other field that is not an element
    contributes nothing, it is still omitted. *)
Theorem dict_empty_list_field (Any : Type) (c : Class)
    (attrs : list (string * value)) (k : string) (rt : value)
    (by_alias exclude_comments : bool) (pydantic_extra : list (string * Any)) :
  (forall prop_name, In prop_name (cls_elements_sequence c) ->
     exists field_key field,
       element_field c prop_name = Some (field_key, field)
       /\ field_key <> "resource_type") ->
  dict_get "resource_type" attrs = Some rt ->
  dict_get k attrs = Some (VList []) ->
  dict_has k (__fields__ c) = true ->
  (forall k', k' <> k -> k' <> "resource_type" -> dict_get_None k' attrs = VNone) ->
  snd (dict (mkInstance c attrs) by_alias true exclude_comments pydantic_extra)
  = Ok ((if has_resource_base c then [("resourceType", rt)] else [])
        ++ comments_pair exclude_comments k)
  /\ snd (dict (mkInstance c attrs) by_alias false exclude_comments pydantic_extra)
     = Ok (OrderedDict
             ((if has_resource_base c then [("resourceType", rt)] else [])
              ++ flat_map (element_pair c by_alias k) (cls_elements_sequence c)
              ++ comments_pair exclude_comments k)).
Proof.
  intros Hwf Hrt Hk Hdeclared Hothers.
  unfold dict, dict_pairs. cbn [snd inst_class inst_dict]. split.
  - rewrite (@_fhir_iter_empty_list c by_alias true exclude_comments attrs k
               Hk Hdeclared Hothers rt Hwf Hrt).
    cbn [bind app]. unfold comments_pair.
    destruct (has_resource_base c);
      destruct (String.eqb k FHIR_COMMENTS_FIELD_NAME && negb exclude_comments);
      reflexivity.
  - rewrite (@_fhir_iter_empty_list c by_alias false exclude_comments attrs k
               Hk Hdeclared Hothers rt Hwf Hrt).
    reflexivity.
Qed.

Lemma dict_empty_list_field_witness :
  snd (dict (mkInstance Patient [("resource_type", VStr "Patient"); ("name", VList [])])
            true true false (@nil (string * unit)))
  = Ok ((if has_resource_base Patient then [("resourceType", VStr "Patient")] else [])
        ++ comments_pair false "name")
  /\ snd (dict (mkInstance Patient [("resource_type", VStr "Patient"); ("name", VList [])])
               true false false (@nil (string * unit)))
     = Ok (OrderedDict
             ((if has_resource_base Patient then [("resourceType", VStr "Patient")] else [])
              ++ flat_map (element_pair Patient true "name") (cls_elements_sequence Patient)
              ++ comments_pair false "name")).
Proof.
  apply (@dict_empty_list_field unit Patient
           [("resource_type", VStr "Patient"); ("name", VList [])]
           "name" (VStr "Patient") true false []).
  - intros prop_name [<-|[<-|[]]]; eexists; eexists; (split; [reflexivity | discriminate]).
  - reflexivity.
  - reflexivity.
  - reflexivity.
  - intros k' Hname Htag. unfold dict_get_None. simpl.
    destruct (String.eqb k' "resource_type") eqn:E1;
      [apply String.eqb_eq in E1; contradiction|].
    destruct (String.eqb k' "name") eqn:E2;
      [apply String.eqb_eq in E2; contradiction|].
    reflexivity.
Defined.

(** C3, counterexample.  Without [exclude_none] a field set to an
    empty list is emitted as an empty list; and with [exclude_none] the
    comments field set to an empty list is emitted all the same. *)
Lemma dict_keeps_empty_list :
  snd (dict (mkInstance Patient [("resource_type", VStr "Patient"); ("name", VList [])])
            true false false (@nil (string * unit)))
  = Ok [("resourceType", VStr "Patient"); ("active", VNone); ("name", VList [])]
  /\ snd (dict (mkInstance Patient
                  [("resource_type", VStr "Patient"); (FHIR_COMMENTS_FIELD_NAME, VList [])])
               true true false (@nil (string * unit)))
     = Ok [("resourceType", VStr "Patient"); (FHIR_COMMENTS_FIELD_NAME, VList [])].
Proof. split; reflexivity. Qed.

(** The three kinds of field, on a patient: without [exclude_none] an
    element set to an empty list is emitted, the extension companion of
    a primitive element is not, the comments field is. *)
Example dict_empty_list_kinds :
  snd (dict (mkInstance Patient [("resource_type", VStr "Patient"); ("name", VList [])])
            true false false (@nil (string * unit)))
  = Ok [("resourceType", VStr "Patient"); ("active", VNone); ("name", VList [])]
  /\ snd (dict (mkInstance Patient
                  [("resource_type", VStr "Patient"); ("active__ext", VList [])])
               true false false (@nil (string * unit)))
     = Ok [("resourceType", VStr "Patient"); ("active", VNone); ("name", VNone)]
  /\ snd (dict (mkInstance Patient
                  [("resource_type", VStr "Patient"); (FHIR_COMMENTS_FIELD_NAME, VList [])])
               true false false (@nil (string * unit)))
     = Ok [("resourceType", VStr "Patient"); ("active", VNone); ("name", VNone);
           (FHIR_COMMENTS_FIELD_NAME, VList [])].
Proof. repeat split; reflexivity. Qed.

Lemma dict_resource_type_key_witness :
  exists v rest,
    [("resourceType", VStr "Patient"); ("active", VBool true)] = ("resourceType", v) :: rest.
Proof.
  exact (proj1 (@dict_resource_type_key unit
                  (mkInstance Patient [("resource_type", VStr "Patient"); ("active", VBool true)])
                  true true false []
                  [("resourceType", VStr "Patient"); ("active", VBool true)] eq_refl)
               eq_refl).
Defined.

(** C5, counterexample.  A class without the resource base that
    declares an element whose output key is [resourceType] emits that
    key. *)
Lemma dict_emits_declared_resourceType :
  has_resource_base Tagged = false
  /\ snd (dict (mkInstance Tagged [("resource_type", VStr "Tagged");
                                   ("resourceType", VStr "Observation")])
               true true false (@nil (string * unit)))
     = Ok [("resourceType", VStr "Observation")].
Proof. split; reflexivity. Qed.

(** ** [json] and the comments *)

(** X2.  All that [exclude_comments] changes in the data [json] encodes
    is the pruning pass at the end: the flag does not reach [dict]. *)
Theorem json_data_exclude_comments (self : Instance) (include exclude : FieldSet)
    (by_alias : option bool) (exclude_unset exclude_defaults : bool)
    (exclude_none : option bool) :
  (forall v, exclude <> FieldSetOther v) ->
  snd (json_data self include exclude by_alias exclude_unset exclude_defaults
                 exclude_none true)
  = (data <- snd (json_data self include exclude by_alias exclude_unset exclude_defaults
                            exclude_none false) ;;
     Ok (filter_empty_list_dict data)).
Proof.
  intros Hexclude. unfold json_data.
  destruct exclude as [ | names | entries | v ]; try (exfalso; apply (Hexclude v); reflexivity);
    cbn [exclude_with_comments dict fst snd];
    destruct (dict_pairs self _ _ false) as [m|e]; cbn [bind]; try reflexivity;
    destruct (cls_custom_root_type (inst_class self)); cbn [bind]; try reflexivity;
    destruct (dict_item ROOT_KEY m); reflexivity.
Qed.

(** C2.  [json] with [exclude_comments] keeps the comments: the data it
    encodes for [commented_patient] holds the comment key in both names,
    and the name whose only content is a comment is not omitted. *)
Theorem json_keeps_comments :
  json_data commented_patient FieldSetNone FieldSetNone None false false None true
  = ([dict_warning Patient],
     Ok (VDict
           [("resourceType", VStr "Patient");
            ("active", VBool true);
            ("name",
             VList [VDict [("family", VStr "Smith");
                           (FHIR_COMMENTS_FIELD_NAME, VList [VStr "legal name"])];
                    VDict [(FHIR_COMMENTS_FIELD_NAME, VStr "only a comment")]])]))
  /\ has_comment_key
       (VDict
          [("resourceType", VStr "Patient");
           ("active", VBool true);
           ("name",
            VList [VDict [("family", VStr "Smith");
                          (FHIR_COMMENTS_FIELD_NAME, VList [VStr "legal name"])];
                   VDict [(FHIR_COMMENTS_FIELD_NAME, VStr "only a comment")]])])
     = true.
Proof. split; reflexivity. Qed.

(** [dict] itself, called with [exclude_comments], does strip them. *)
Example dict_strips_comments :
  snd (dict commented_patient true true true (@nil (string * unit)))
  = Ok [("resourceType", VStr "Patient");
        ("active", VBool true);
        ("name", VList [VDict [("family", VStr "Smith")]; VNone])]
  /\ has_comment_key
       (VDict [("resourceType", VStr "Patient");
               ("active", VBool true);
               ("name", VList [VDict [("family", VStr "Smith")]; VNone])])
     = false.
Proof. split; reflexivity. Qed.

(** ** Further properties *)

Lemma prune_dict_idempotent (f : value -> value) (d : list (string * value)) :
  Forall (fun kv => f (f (snd kv)) = f (snd kv)) d ->
  f VNone = VNone ->
  prune_dict f (prune_dict f d) = prune_dict f d.
Proof.
  intros Hd HNone. induction d as [|[k x] d IH]; [reflexivity|].
  inversion Hd as [| ? ? Hx Hd']; subst. simpl in Hx.
  rewrite prune_dict_cons. destruct (is_None x) eqn:Ex.
  - rewrite prune_dict_cons, Ex, (IH Hd'). reflexivity.
  - destruct (is_None (f x)) eqn:Efx; [exact (IH Hd')|].
    rewrite prune_dict_cons, Efx, Hx, Efx, (IH Hd'). reflexivity.
Qed.

(** X3.  Without lists, pruning twice is pruning once: only the list
    loop leaves work undone. *)
Theorem filter_empty_list_dict_idempotent_without_lists (v : value) :
  list_free v = true ->
  filter_empty_list_dict (filter_empty_list_dict v) = filter_empty_list_dict v.
Proof.
  induction v as [ | | b | n | s | m v _ | l _ | l _ | d IHd | c d _ ]
    using value_nested_ind; intros Hfree; try reflexivity; try discriminate Hfree.
  simpl in Hfree. rewrite forallb_forall in Hfree.
  assert (Hd : Forall (fun kv => filter_empty_list_dict (filter_empty_list_dict (snd kv))
                                 = filter_empty_list_dict (snd kv)) d).
  { rewrite Forall_forall in *. intros kv Hin. apply (IHd kv Hin), Hfree, Hin. }
  pose proof (prune_dict_idempotent filter_empty_list_dict Hd eq_refl) as Hidem.
  rewrite (filter_empty_list_dict_dict d).
  destruct (prune_dict filter_empty_list_dict d) as [|kv d'] eqn:E; [reflexivity|].
  rewrite filter_empty_list_dict_dict, Hidem. reflexivity.
Qed.

Lemma filter_empty_list_dict_idempotent_without_lists_witness :
  filter_empty_list_dict
    (filter_empty_list_dict (VDict [("a", VDict []); ("b", VDict [("c", VDict [])]);
                                    ("d", VNone)]))
  = filter_empty_list_dict (VDict [("a", VDict []); ("b", VDict [("c", VDict [])]);
                                   ("d", VNone)]).
Proof.
  apply (filter_empty_list_dict_idempotent_without_lists
           (VDict [("a", VDict []); ("b", VDict [("c", VDict [])]); ("d", VNone)])).
  reflexivity.
Defined.

Lemma dict_has_false_keys (A : Type) (k : string) (d : list (string * A)) :
  dict_has k d = false -> ~ In k (dict_keys d).
Proof.
  unfold dict_has, dict_keys. induction d as [|[k0 w] d IH]; simpl; intros H [].
  - subst. rewrite String.eqb_refl in H. discriminate H.
  - destruct (String.eqb k k0); [discriminate H | apply (IH H); assumption].
Qed.

Lemma OrderedDict_NoDup (A : Type) (pairs : list (string * A)) :
  NoDup (dict_keys (OrderedDict pairs)).
Proof.
  unfold OrderedDict.
  assert (H : forall d, NoDup (dict_keys d) ->
                        NoDup (dict_keys (fold_left (@insert_pair A) pairs d))).
  { induction pairs as [|[k v] pairs IH]; intros d Hd; [exact Hd|].
    simpl. apply IH. unfold insert_pair. simpl. rewrite dict_keys_set.
    destruct (dict_has k d) eqn:E; [exact Hd|].
    apply NoDup_app; [exact Hd | repeat constructor; intros [] |].
    intros k' Hk' [<-|[]]. exact (dict_has_false_keys _ _ E Hk'). }
  apply H. constructor.
Qed.

Lemma json_data_exclude_comments_witness :
  snd (json_data commented_patient FieldSetNone FieldSetNone None false false None true)
  = (data <- snd (json_data commented_patient FieldSetNone FieldSetNone None false false
                            None false) ;;
     Ok (filter_empty_list_dict data)).
Proof.
  apply (@json_data_exclude_comments commented_patient FieldSetNone FieldSetNone
           None false false None).
  discriminate.
Defined.

(** ** [dict] called with [exclude_comments] *)

Lemma field_output_key_emits (c : Class) (by_alias : bool) (k : string) :
  field_output_key c by_alias k -> emits_key c by_alias k = true.
Proof.
  intros [prop_name [field_key [field [Hin [Hfield Hk]]]]].
  unfold emits_key. apply existsb_exists. exists prop_name. split; [exact Hin|].
  rewrite Hfield. destruct Hk as [->|[Hprim Hext]].
  - rewrite String.eqb_refl. reflexivity.
  - rewrite Hprim. apply orb_true_iff. right. cbn [andb].
    destruct by_alias.
    + destruct Hext as [ext_field [-> ->]]. apply String.eqb_refl.
    + rewrite Hext. apply String.eqb_refl.
Qed.

Lemma existsb_false (A : Type) (p : A -> bool) (l : list A) :
  (forall x, In x l -> p x = false) -> existsb p l = false.
Proof.
  intros H. destruct (existsb p l) eqn:E; [|reflexivity].
  apply existsb_exists in E. destruct E as [x [Hin Hx]].
  rewrite (H x Hin) in Hx. discriminate Hx.
Qed.

Lemma has_comment_key_dict (d : list (string * value)) :
  dict_has FHIR_COMMENTS_FIELD_NAME d = false ->
  (forall k v, In (k, v) d -> has_comment_key v = false) ->
  has_comment_key (VDict d) = false.
Proof.
  intros Hkey Hvalues. cbn [has_comment_key]. rewrite Hkey. cbn [orb].
  apply existsb_false. intros [k v] Hin. exact (Hvalues k v Hin).
Qed.

Lemma has_comment_key_collapse_empty (exclude_none : bool) (v : value) :
  has_comment_key v = false -> has_comment_key (collapse_empty exclude_none v) = false.
Proof.
  intros H. unfold collapse_empty.
  destruct (is_sequence_or_dict v && exclude_none && Nat.eqb (container_length v) 0);
    [reflexivity | exact H].
Qed.

(** Raw values that keep the comments apart hold no comment key. *)
Lemma comments_apart_has_no_comment_key (by_alias : bool) (v : value) :
  comments_apart by_alias v = true -> has_comment_key v = false.
Proof.
  induction v as [ | | b | n | s | m v _ | l IHl | l IHl | d IHd | c d _ ]
    using value_nested_ind; intros H; try reflexivity.
  - cbn [comments_apart] in H. rewrite forallb_forall in H. rewrite Forall_forall in IHl.
    apply existsb_false. intros x Hin. apply (IHl x Hin), H, Hin.
  - cbn [comments_apart] in H. rewrite forallb_forall in H. rewrite Forall_forall in IHl.
    apply existsb_false. intros x Hin. apply (IHl x Hin), H, Hin.
  - cbn [comments_apart] in H. apply andb_true_iff in H. destruct H as [Hkey H].
    rewrite forallb_forall in H. rewrite Forall_forall in IHd.
    apply has_comment_key_dict; [apply negb_true_iff, Hkey|].
    intros k v Hin. apply (IHd (k, v) Hin), (H (k, v) Hin).
Qed.

Section ConvertedItems.
Variable convert : value -> Result value.

Lemma convert_items_In (items : list value) : forall items' x',
  convert_items convert items = Ok items' ->
  In x' items' -> exists x, In x items /\ convert x = Ok x'.
Proof.
  induction items as [|x items IH]; simpl; intros items' x' H Hin.
  - injection H as <-. destruct Hin.
  - bind_inv H as y Hy. bind_inv H as ys Hys. injection H as <-.
    destruct Hin as [<-|Hin]; [eauto|].
    destruct (IH _ _ Hys Hin) as [x0 [Hx0 Hc]]. eauto.
Qed.

Lemma convert_entries_In (items : list (string * value)) : forall items' k x',
  convert_entries convert items = Ok items' ->
  In (k, x') items' -> exists x, In (k, x) items /\ convert x = Ok x'.
Proof.
  induction items as [|[k0 x] items IH]; simpl; intros items' k x' H Hin.
  - injection H as <-. destruct Hin.
  - bind_inv H as y Hy. bind_inv H as ys Hys. injection H as <-.
    destruct Hin as [Heq|Hin]; [injection Heq as <- <-; eauto|].
    destruct (IH _ _ _ Hys Hin) as [x0 [Hx0 Hc]]. eauto.
Qed.
End ConvertedItems.

Lemma dict_has_In (A : Type) (k : string) (d : list (string * A)) :
  dict_has k d = false -> forall v, ~ In (k, v) d.
Proof.
  intros H v Hin. apply (@dict_has_false_keys _ k d H).
  unfold dict_keys. apply (in_map fst) in Hin. exact Hin.
Qed.

Lemma dict_has_of_entries (A B : Type) (k : string)
    (d : list (string * A)) (d' : list (string * B)) :
  (forall v', In (k, v') d' -> exists v, In (k, v) d) ->
  dict_has k d = false -> dict_has k d' = false.
Proof.
  intros Hsub Hd. destruct (dict_has k d') eqn:E; [|reflexivity].
  destruct (dict_has_true _ _ E) as [v' Hv']. apply dict_get_In in Hv'.
  destruct (Hsub v' Hv') as [v Hv]. exfalso. exact (@dict_has_In _ k d Hd v Hv).
Qed.

(** A pair of [OrderedDict(pairs)] is one of the pairs. *)
Lemma OrderedDict_In (A : Type) (pairs : list (string * A)) (k : string) (v : A) :
  In (k, v) (OrderedDict pairs) -> In (k, v) pairs.
Proof.
  intros Hin. apply (@dict_get_NoDup A k v _ (OrderedDict_NoDup pairs)) in Hin.
  rewrite dict_get_OrderedDict in Hin. apply dict_get_In in Hin.
  apply in_rev. exact Hin.
Qed.

Section IterationValues.
Variable c : Class.
Variables by_alias exclude_none exclude_comments : bool.
Variable attrs : list (string * value).
Variable convert : value -> Result value.
Let converted := converted_attrs convert attrs.

(** [v] is [None], or the conversion of an attribute. *)
Let from_attrs (v : value) : Prop :=
  v = VNone \/ exists key x, dict_get key attrs = Some x /\ convert x = Ok v.

Lemma converted_value_from_attrs (key : string) (v : value) :
  converted_value converted key = Ok v -> from_attrs v.
Proof.
  unfold converted_value, converted. rewrite dict_get_converted_attrs.
  destruct (dict_get key attrs) as [x|] eqn:E; intros H.
  - right. eauto.
  - injection H as <-. left. reflexivity.
Qed.

Lemma emit_extension_values (field_key : string) (pairs : list (string * value))
    (k : string) (v : value) :
  emit_extension c by_alias attrs converted field_key = Ok pairs ->
  In (k, v) pairs -> from_attrs v.
Proof.
  unfold emit_extension. intros H Hin.
  destruct (negb (is_None (dict_get_None (field_key ++ "__ext") attrs)));
    [|injection H as <-; destruct Hin].
  bind_inv H as key Hkey. bind_inv H as ext_val Hext.
  destruct (negb (is_None ext_val)); [|injection H as <-; destruct Hin].
  bind_inv H as n Hn.
  destruct (Nat.ltb 0 n); injection H as <-; [|destruct Hin].
  destruct Hin as [Heq|[]]. injection Heq as <- <-.
  apply (converted_value_from_attrs _ Hext).
Qed.

Lemma emit_element_values (prop_name : string) (pairs : list (string * value))
    (k : string) (v : value) :
  emit_element c by_alias exclude_none attrs converted prop_name = Ok pairs ->
  In (k, v) pairs -> from_attrs v.
Proof.
  unfold emit_element. intros H Hin.
  bind_inv H as field_key Hfield_key. bind_inv H as field Hfield.
  bind_inv H as v0 Hv0. bind_inv H as ext Hext. injection H as <-.
  apply in_app_or in Hin. destruct Hin as [Hin|Hin].
  - destruct (negb (is_None v0) || negb exclude_none && is_None v0); [|destruct Hin].
    destruct Hin as [Heq|[]]. injection Heq as <- <-.
    destruct (negb (is_None (dict_get_None field_key attrs))) eqn:E.
    + apply (converted_value_from_attrs _ Hv0).
    + injection Hv0 as <-. left. apply is_None_true, negb_false_iff, E.
  - destruct (field_primitive field).
    + apply (@emit_extension_values field_key ext k v Hext Hin).
    + injection Hext as <-. destruct Hin.
Qed.

Lemma emit_elements_values (props : list string) : forall pairs k v,
  emit_elements c by_alias exclude_none attrs converted props = Ok pairs ->
  In (k, v) pairs -> from_attrs v.
Proof.
  induction props as [|p props IH]; simpl; intros pairs k v H Hin.
  - injection H as <-. destruct Hin.
  - bind_inv H as first Hfirst. bind_inv H as others Hothers. injection H as <-.
    apply in_app_or in Hin. destruct Hin as [Hin|Hin].
    + apply (@emit_element_values p first k v Hfirst Hin).
    + apply (IH _ _ _ Hothers Hin).
Qed.

(** Every pair [_fhir_iter] yields is the type tag, an element or
    extension with a converted value, or the comments. *)
Lemma _fhir_iter_pairs (pairs : list (string * value)) (k : string) (v : value) :
  _fhir_iter c by_alias exclude_none exclude_comments attrs converted = Ok pairs ->
  In (k, v) pairs ->
  (k = "resourceType" /\ dict_get "resource_type" attrs = Some v)
  \/ (field_output_key c by_alias k /\ from_attrs v)
  \/ (exclude_comments = false /\ k = FHIR_COMMENTS_FIELD_NAME).
Proof.
  unfold _fhir_iter. intros H Hin.
  bind_inv H as tag Htag. bind_inv H as elements Helements. injection H as <-.
  apply in_app_or in Hin. destruct Hin as [Hin|Hin].
  - left. destruct (has_resource_base c).
    + bind_inv Htag as rt Hrt. injection Htag as <-. unfold resource_type_attr in Hrt.
      destruct (dict_get "resource_type" attrs) as [rt'|]; [|discriminate Hrt].
      injection Hrt as ->. destruct Hin as [Heq|[]]. injection Heq as <- <-.
      split; reflexivity.
    + injection Htag as <-. destruct Hin.
  - apply in_app_or in Hin. destruct Hin as [Hin|Hin].
    + right; left. split.
      * assert (Hk : In k (map fst elements)) by (apply (in_map fst) in Hin; exact Hin).
        destruct (@emit_elements_keys c by_alias exclude_none attrs converted _ elements k
                    Helements Hk) as [p [fk [f [Hp [Hf Hkey]]]]].
        exists p, fk, f. auto.
      * apply (@emit_elements_values _ elements k v Helements Hin).
    + right; right. destruct exclude_comments.
      * rewrite andb_false_r in Hin. destruct Hin.
      * split; [reflexivity|].
        destruct (negb (is_None (dict_get_None FHIR_COMMENTS_FIELD_NAME attrs)) && negb false);
          [destruct Hin as [Heq|[]]; injection Heq as <- _; reflexivity | destruct Hin].
Qed.
End IterationValues.

Section ModelPairs.
Variables (c : Class) (by_alias exclude_none : bool) (attrs : list (string * value)).
Hypothesis Hclass : emits_key c by_alias FHIR_COMMENTS_FIELD_NAME = false.
Hypothesis Hattrs : forall key x, In (key, x) attrs -> comments_apart by_alias x = true.
Hypothesis IH : forall key x, In (key, x) attrs ->
  forall r, _fhir_get_value c by_alias exclude_none true x = Ok r ->
            has_comment_key r = false.

(** With [exclude_comments], no pair of the mapping of a model has the
    comment key, or a value that holds it. *)
Lemma model_pairs_without_comments (pairs : list (string * value)) (k : string) (v : value) :
  _fhir_iter c by_alias exclude_none true attrs
    (converted_attrs (_fhir_get_value c by_alias exclude_none true) attrs) = Ok pairs ->
  In (k, v) (OrderedDict pairs) ->
  k <> FHIR_COMMENTS_FIELD_NAME /\ has_comment_key v = false.
Proof.
  intros Hpairs Hin. apply OrderedDict_In in Hin.
  destruct (@_fhir_iter_pairs c by_alias exclude_none true attrs _ pairs k v Hpairs Hin)
    as [[-> Hrt]|[[Hkey Hv]|[Hfalse _]]].
  - split; [discriminate|]. apply dict_get_In in Hrt.
    apply (@comments_apart_has_no_comment_key by_alias), (Hattrs _ _ Hrt).
  - split.
    + intros ->. apply field_output_key_emits in Hkey. rewrite Hclass in Hkey.
      discriminate Hkey.
    + destruct Hv as [->|[key [x [Hx Hconv]]]]; [reflexivity|].
      apply dict_get_In in Hx. eapply IH; eassumption.
  - discriminate Hfalse.
Qed.

Lemma model_dict_without_comments (pairs : list (string * value)) :
  _fhir_iter c by_alias exclude_none true attrs
    (converted_attrs (_fhir_get_value c by_alias exclude_none true) attrs) = Ok pairs ->
  has_comment_key (VDict (OrderedDict pairs)) = false.
Proof.
  intros Hpairs. apply has_comment_key_dict.
  - destruct (dict_has FHIR_COMMENTS_FIELD_NAME (OrderedDict pairs)) eqn:E; [|reflexivity].
    destruct (dict_has_true _ _ E) as [v Hv]. apply dict_get_In in Hv.
    destruct (@model_pairs_without_comments pairs _ v Hpairs Hv) as [Hne _].
    exfalso. apply Hne. reflexivity.
  - intros k v Hin. apply (@model_pairs_without_comments pairs k v Hpairs Hin).
Qed.
End ModelPairs.

(** The conversion of a value with [exclude_comments] holds no comment
    key, at any depth. *)
Lemma _fhir_get_value_without_comments (by_alias exclude_none : bool) (v : value) :
  forall (cls : Class) (r : value),
    comments_apart by_alias v = true ->
    _fhir_get_value cls by_alias exclude_none true v = Ok r ->
    has_comment_key r = false.
Proof.
  induction v as [ | | b | n | s | m v _ | l IHl | l IHl | d IHd | c d IHd ]
    using value_nested_ind; intros cls r Hv Hr;
    try (injection Hr as <-; reflexivity).
  - cbn [_fhir_get_value comments_apart] in Hr, Hv. apply negb_true_iff in Hv.
    destruct (cls_use_enum_values cls); injection Hr as <-; [|reflexivity].
    apply has_comment_key_collapse_empty, Hv.
  - cbn [_fhir_get_value comments_apart] in Hr, Hv.
    bind_inv Hr as items' Hitems. injection Hr as <-.
    rewrite forallb_forall in Hv. rewrite Forall_forall in IHl.
    apply has_comment_key_collapse_empty, existsb_false. intros x' Hin.
    destruct (convert_items_In _ _ _ Hitems Hin) as [x [Hx Hconv]].
    apply (IHl x Hx cls x' (Hv x Hx) Hconv).
  - cbn [_fhir_get_value comments_apart] in Hr, Hv.
    bind_inv Hr as items' Hitems. injection Hr as <-.
    rewrite forallb_forall in Hv. rewrite Forall_forall in IHl.
    apply has_comment_key_collapse_empty, existsb_false. intros x' Hin.
    destruct (convert_items_In _ _ _ Hitems Hin) as [x [Hx Hconv]].
    apply (IHl x Hx cls x' (Hv x Hx) Hconv).
  - cbn [_fhir_get_value comments_apart] in Hr, Hv.
    bind_inv Hr as items' Hitems. injection Hr as <-.
    apply andb_true_iff in Hv. destruct Hv as [Hkey Hv]. apply negb_true_iff in Hkey.
    rewrite forallb_forall in Hv. rewrite Forall_forall in IHd.
    apply has_comment_key_collapse_empty, has_comment_key_dict.
    + apply (@dict_has_of_entries value value FHIR_COMMENTS_FIELD_NAME d items'); [|exact Hkey].
      intros v' Hin. destruct (convert_entries_In _ _ _ _ Hitems Hin) as [x [Hx _]]. eauto.
    + intros k x' Hin. destruct (convert_entries_In _ _ _ _ Hitems Hin) as [x [Hx Hconv]].
      apply (IHd (k, x) Hx cls x' (Hv (k, x) Hx) Hconv).
  - cbn [_fhir_get_value comments_apart] in Hr, Hv.
    apply andb_true_iff in Hv. destruct Hv as [Hclass Hv]. apply negb_true_iff in Hclass.
    rewrite forallb_forall in Hv. rewrite Forall_forall in IHd.
    bind_inv Hr as pairs Hpairs.
    assert (Hattrs : forall key x, In (key, x) d -> comments_apart by_alias x = true)
      by (intros key x Hin; apply (Hv (key, x) Hin)).
    assert (IH : forall key x, In (key, x) d ->
              forall r, _fhir_get_value c by_alias exclude_none true x = Ok r ->
                        has_comment_key r = false)
      by (intros key x Hin r0 Hr0; apply (IHd (key, x) Hin c r0 (Hattrs key x Hin) Hr0)).
    destruct (dict_get "__root__" (OrderedDict pairs)) as [root|] eqn:Eroot;
      injection Hr as <-.
    + apply dict_get_In in Eroot.
      apply (@model_pairs_without_comments c by_alias exclude_none d Hclass Hattrs IH
               pairs "__root__" root Hpairs Eroot).
    + apply has_comment_key_collapse_empty.
      apply (@model_dict_without_comments c by_alias exclude_none d Hclass Hattrs IH
               pairs Hpairs).
Qed.

(** X1.  [dict] called with [exclude_comments] returns a mapping with
    no comment key at any depth, for a record that keeps its comments
    apart from its data. *)
Theorem dict_exclude_comments_at_depth (Any : Type) (self : Instance)
    (by_alias exclude_none : bool) (pydantic_extra : list (string * Any))
    (m : list (string * value)) :
  comments_apart by_alias (VModel (inst_class self) (inst_dict self)) = true ->
  snd (dict self by_alias exclude_none true pydantic_extra) = Ok m ->
  has_comment_key (VDict m) = false.
Proof.
  intros Hself. cbn [comments_apart] in Hself.
  apply andb_true_iff in Hself. destruct Hself as [Hclass Hattrs].
  apply negb_true_iff in Hclass. rewrite forallb_forall in Hattrs.
  unfold dict, dict_pairs. cbn [snd]. intros H.
  bind_inv H as pairs Hpairs. injection H as <-.
  apply (@model_dict_without_comments (inst_class self) by_alias exclude_none
           (inst_dict self) Hclass); [| |exact Hpairs].
  - intros key x Hin. apply (Hattrs (key, x) Hin).
  - intros key x Hin r Hr.
    apply (@_fhir_get_value_without_comments by_alias exclude_none x (inst_class self) r);
      [apply (Hattrs (key, x) Hin) | exact Hr].
Qed.

Lemma dict_exclude_comments_at_depth_witness :
  has_comment_key
    (VDict [("resourceType", VStr "Patient");
            ("active", VBool true);
            ("name", VList [VDict [("family", VStr "Smith")]; VNone])])
  = false.
Proof.
  apply (@dict_exclude_comments_at_depth unit commented_patient true true []);
    reflexivity.
Defined.

(** * Further properties of the module *)


(** * Further properties of the module *)

(** ** Pruning keeps the data *)

Section PruneLeaves.
Variable f : value -> value.
Let keeps (x : value) : Prop :=
  is_None x = false ->
  (f x = VNone -> leaves x = [])
  /\ (is_None (f x) = false -> leaves (f x) = leaves x).

Lemma prune_list_leaves (l : list value) :
  Forall keeps l ->
  flat_map leaves (prune_list f l) = flat_map leaves l.
Proof.
  induction l as [| x | x y l IHl IHyl] using list_two_step_ind; intros Hl.
  - reflexivity.
  - inversion Hl as [| ? ? Hk _]; subst.
    rewrite prune_list_cons. destruct (is_None x) eqn:Ex; [reflexivity|].
    destruct (Hk Ex) as [H0 H1].
    destruct (is_None (f x)) eqn:Efx.
    + apply is_None_true in Efx. simpl. rewrite (H0 Efx). reflexivity.
    + simpl. rewrite (H1 eq_refl). reflexivity.
  - inversion Hl as [| ? ? Hk Hyl]; subst.
    assert (Hl' : Forall keeps l) by (inversion Hyl; assumption).
    rewrite prune_list_cons. destruct (is_None x) eqn:Ex.
    + cbn [flat_map]. rewrite (IHyl Hyl). reflexivity.
    + destruct (Hk Ex) as [H0 H1].
      destruct (is_None (f x)) eqn:Efx.
      * apply is_None_true in Efx.
        cbn [flat_map]. rewrite (IHl Hl'), (H0 Efx). reflexivity.
      * cbn [flat_map]. rewrite (IHyl Hyl), (H1 eq_refl). reflexivity.
Qed.

Lemma prune_dict_leaves (d : list (string * value)) :
  Forall (fun kv => keeps (snd kv)) d ->
  flat_map (fun kv => leaves (snd kv)) (prune_dict f d)
  = flat_map (fun kv => leaves (snd kv)) d.
Proof.
  induction d as [|[k x] d IHd]; intros Hd; [reflexivity|].
  inversion Hd as [| ? ? Hk Hd']; subst. simpl in Hk.
  rewrite prune_dict_cons. destruct (is_None x) eqn:Ex.
  - cbn [flat_map snd]. rewrite (IHd Hd'). reflexivity.
  - destruct (Hk Ex) as [H0 H1].
    destruct (is_None (f x)) eqn:Efx.
    + apply is_None_true in Efx. cbn [flat_map snd]. rewrite (IHd Hd'), (H0 Efx).
      reflexivity.
    + cbn [flat_map snd]. rewrite (IHd Hd'), (H1 eq_refl). reflexivity.
Qed.
End PruneLeaves.

(** X6.  Pruning loses no data.  For a list or mapping, the values it
    holds in the end (everything that is not itself a list or mapping,
    [None] included) are the same, in the same order, before and after;
    when the whole tree collapses to [None], it held none. *)
Theorem filter_empty_list_dict_keeps_leaves (v : value) :
  is_list_or_dict v = true ->
  leaves v =
  if is_None (filter_empty_list_dict v) then []
  else leaves (filter_empty_list_dict v).
Proof.
  induction v as [ | | b | n | s | m v _ | l IHl | l _ | d IHd | c d _ ]
    using value_nested_ind; intros Hv; try discriminate Hv.
  - assert (Hl : Forall (fun x => is_None x = false ->
                   (filter_empty_list_dict x = VNone -> leaves x = [])
                   /\ (is_None (filter_empty_list_dict x) = false ->
                       leaves (filter_empty_list_dict x) = leaves x)) l).
    { rewrite Forall_forall in *. intros x Hin Ex.
      destruct (is_list_or_dict x) eqn:Ec.
      - pose proof (IHl x Hin Ec) as Hx. split.
        + intros E. rewrite E in Hx. exact Hx.
        + intros E. rewrite E in Hx. symmetry. exact Hx.
      - assert (Hid : filter_empty_list_dict x = x) by (destruct x; try reflexivity; discriminate Ec).
        rewrite Hid. split; [intros ->; discriminate Ex | reflexivity]. }
    pose proof (@prune_list_leaves filter_empty_list_dict l Hl) as Hsum.
    rewrite filter_empty_list_dict_list. cbn [leaves]. rewrite <- Hsum.
    destruct (prune_list filter_empty_list_dict l); reflexivity.
  - assert (Hd : Forall (fun kv => is_None (snd kv) = false ->
                   (filter_empty_list_dict (snd kv) = VNone -> leaves (snd kv) = [])
                   /\ (is_None (filter_empty_list_dict (snd kv)) = false ->
                       leaves (filter_empty_list_dict (snd kv)) = leaves (snd kv))) d).
    { rewrite Forall_forall in *. intros [k x] Hin Ex. simpl in *.
      destruct (is_list_or_dict x) eqn:Ec.
      - pose proof (IHd (k, x) Hin Ec) as Hx. simpl in Hx. split.
        + intros E. rewrite E in Hx. exact Hx.
        + intros E. rewrite E in Hx. symmetry. exact Hx.
      - assert (Hid : filter_empty_list_dict x = x) by (destruct x; try reflexivity; discriminate Ec).
        rewrite Hid. split; [intros ->; discriminate Ex | reflexivity]. }
    pose proof (@prune_dict_leaves filter_empty_list_dict d Hd) as Hsum.
    rewrite filter_empty_list_dict_dict. cbn [leaves]. rewrite <- Hsum.
    destruct (prune_dict filter_empty_list_dict d); reflexivity.
Qed.

Lemma filter_empty_list_dict_keeps_leaves_witness :
  leaves (VList [VList []; VList [VInt 1; VDict []]; VNone; VDict [("a", VStr "x")]])
  = [VInt 1; VNone; VStr "x"].
Proof.
  apply (filter_empty_list_dict_keeps_leaves
           (VList [VList []; VList [VInt 1; VDict []]; VNone; VDict [("a", VStr "x")]])
           eq_refl).
Defined.

(** ** Pruning a tree of mappings is complete *)

Lemma prune_dict_entries (f : value -> value) (d : list (string * value)) :
  forall k x', In (k, x') (prune_dict f d) ->
  x' = VNone \/ exists x, In (k, x) d /\ x' = f x.
Proof.
  induction d as [|[k0 x0] d IH]; intros k x' Hin; [destruct Hin|].
  rewrite prune_dict_cons in Hin.
  destruct (is_None x0) eqn:E0.
  - destruct Hin as [Heq|Hin].
    + injection Heq as <- <-. left. apply is_None_true, E0.
    + destruct (IH _ _ Hin) as [H|[x [Hx H]]]; [left; exact H|].
      right. exists x. split; [right; exact Hx | exact H].
  - destruct (is_None (f x0)) eqn:Ef.
    + destruct (IH _ _ Hin) as [H|[x [Hx H]]]; [left; exact H|].
      right. exists x. split; [right; exact Hx | exact H].
    + destruct Hin as [Heq|Hin].
      * injection Heq as <- <-. right. exists x0. split; [left; reflexivity | reflexivity].
      * destruct (IH _ _ Hin) as [H|[x [Hx H]]]; [left; exact H|].
        right. exists x. split; [right; exact Hx | exact H].
Qed.

(** X7.  On a tree made of mappings and scalars only (no list, tuple,
    model instance or enum member) pruning is complete: no empty
    list or mapping is left at any depth of the result. *)
Theorem filter_empty_list_dict_complete_without_lists (v : value) :
  mappings_only v = true ->
  has_empty_container (filter_empty_list_dict v) = false.
Proof.
  induction v as [ | | b | n | s | m v _ | l _ | l _ | d IHd | c d _ ]
    using value_nested_ind; intros Hfree; try reflexivity; try discriminate Hfree.
  cbn [mappings_only] in Hfree. rewrite forallb_forall in Hfree.
  rewrite Forall_forall in IHd.
  rewrite filter_empty_list_dict_dict.
  destruct (prune_dict filter_empty_list_dict d) as [|kv d'] eqn:E; [reflexivity|].
  cbn [has_empty_container List.length Nat.eqb orb].
  apply existsb_false. intros [k x'] Hin. cbn [snd].
  rewrite <- E in Hin.
  destruct (prune_dict_entries _ _ _ _ Hin) as [->|[x [Hx ->]]]; [reflexivity|].
  apply (IHd (k, x) Hx), (Hfree (k, x) Hx).
Qed.

Lemma filter_empty_list_dict_complete_without_lists_witness :
  has_empty_container
    (filter_empty_list_dict
       (VDict [("a", VDict [("b", VDict []); ("c", VDict [("d", VDict [])])]);
               ("e", VInt 1)]))
  = false.
Proof.
  apply (filter_empty_list_dict_complete_without_lists
           (VDict [("a", VDict [("b", VDict []); ("c", VDict [("d", VDict [])])]);
                   ("e", VInt 1)])).
  reflexivity.
Defined.


(** ** Resource-base classification and inheritance *)

Lemma drop_last_app (A : Type) (pre l : list A) :
  4 <= List.length l ->
  drop_last 4 (pre ++ l) = pre ++ drop_last 4 l.
Proof.
  intros Hlen. unfold drop_last. rewrite length_app.
  rewrite firstn_app.
  replace (List.length pre + List.length l - 4 - List.length pre)
    with (List.length l - 4) by lia.
  rewrite firstn_all2 by lia. reflexivity.
Qed.

Lemma has_resource_base_length (c : Class) :
  has_resource_base c = true -> 4 < List.length (cls_mro c).
Proof.
  unfold has_resource_base, drop_last. intros H.
  destruct (Nat.ltb 4 (List.length (cls_mro c))) eqn:E; [apply Nat.ltb_lt, E|].
  apply Nat.ltb_ge in E.
  replace (List.length (cls_mro c) - 4) with 0 in H by lia. discriminate H.
Qed.

(** X8.  The classification is inherited: a class whose MRO ends with
    the MRO of a class that has the resource base has it too, whatever
    classes come before. *)
Theorem has_resource_base_inherited (base sub : Class) (pre : list string) :
  cls_mro sub = pre ++ cls_mro base ->
  has_resource_base base = true ->
  has_resource_base sub = true.
Proof.
  intros Hmro Hbase. pose proof (has_resource_base_length _ Hbase) as Hlen.
  unfold has_resource_base in *. rewrite Hmro, drop_last_app by lia.
  rewrite existsb_app, Hbase. apply orb_true_r.
Qed.

Lemma has_resource_base_inherited_witness :
  has_resource_base
    (mkClass "app" "MyPatient" ("MyPatient" :: cls_mro Patient) (Some "Patient")
             [] [] [] false false)
  = true.
Proof.
  apply (@has_resource_base_inherited Patient
           (mkClass "app" "MyPatient" ("MyPatient" :: cls_mro Patient) (Some "Patient")
                    [] [] [] false false)
           ["MyPatient"]); reflexivity.
Defined.

(** X9.  The last four classes of the MRO are never looked at: a class
    has the resource base exactly when a class named [Resource] stands
    in its MRO with at least four classes after it. *)
Theorem has_resource_base_position (c : Class) :
  has_resource_base c = true <->
  exists before after,
    cls_mro c = before ++ "Resource" :: after /\ 4 <= List.length after.
Proof.
  unfold has_resource_base, drop_last. split.
  - intros H. apply existsb_exists in H. destruct H as [name [Hin Hname]].
    apply String.eqb_eq in Hname. subst name.
    apply in_split in Hin. destruct Hin as [before [rest Hsplit]].
    exists before, (rest ++ skipn (List.length (cls_mro c) - 4) (cls_mro c)). split.
    + rewrite <- (firstn_skipn (List.length (cls_mro c) - 4) (cls_mro c)) at 1.
      rewrite Hsplit, <- app_assoc. reflexivity.
    + rewrite length_app, length_skipn.
      assert (Hf : List.length (firstn (List.length (cls_mro c) - 4) (cls_mro c))
                   = List.length (before ++ "Resource" :: rest)) by (rewrite Hsplit; reflexivity).
      rewrite length_firstn, length_app in Hf. simpl in Hf. lia.
  - intros [before [after [Hmro Hlen]]]. apply existsb_exists. exists "Resource".
    split; [|reflexivity]. rewrite Hmro, length_app. simpl.
    rewrite firstn_app.
    apply in_or_app. right.
    replace (List.length before + S (List.length after) - 4 - List.length before)
      with (S (List.length after - 4)) by lia.
    left. reflexivity.
Qed.

(** ** Registering a validator twice *)

Lemma add_root_validator_success (st : ClassState) (validator : Callable)
    (pre skip_on_failure allow_reuse : bool) (index : Z) :
  fst (add_root_validator st validator pre skip_on_failure allow_reuse index) = Ok tt ->
  st_dict (snd (add_root_validator st validator pre skip_on_failure allow_reuse index))
  = dict_set (fn_name (underlying_function validator))
             (InjectedRootValidator (underlying_function validator) pre skip_on_failure true)
             (st_dict st)
  /\ st_bases_dicts (snd (add_root_validator st validator pre skip_on_failure allow_reuse index))
     = st_bases_dicts st
  /\ st_class (snd (add_root_validator st validator pre skip_on_failure allow_reuse index))
     = st_class st.
Proof.
  unfold add_root_validator.
  destruct (existsb _ _); [discriminate|].
  destruct (dict_has _ (__fields__ _)); [discriminate|].
  destruct (root_validator _ _ _); [|discriminate].
  destruct (negb (Nat.eqb _ 2)); [discriminate|].
  destruct (negb (String.eqb _ "cls")); [discriminate|].
  intros _. repeat split.
Qed.

(** X10.  A name can be registered once.  After a successful
    [add_root_validator], a second call for a function of the same name,
    with any settings, raises a configuration error and changes nothing:
    the first registration stays as it is. *)
Theorem add_root_validator_once (st : ClassState) (first second : Callable)
    (pre skip_on_failure allow_reuse : bool) (index : Z)
    (pre' skip_on_failure' allow_reuse' : bool) (index' : Z) :
  fst (add_root_validator st first pre skip_on_failure allow_reuse index) = Ok tt ->
  fn_name (underlying_function second) = fn_name (underlying_function first) ->
  exists msg,
    add_root_validator
      (snd (add_root_validator st first pre skip_on_failure allow_reuse index))
      second pre' skip_on_failure' allow_reuse' index'
    = (Raise (ConfigError msg),
       snd (add_root_validator st first pre skip_on_failure allow_reuse index)).
Proof.
  intros Hok Hname.
  destruct (add_root_validator_success _ _ _ _ _ _ Hok) as [Hdict _].
  set (st' := snd (add_root_validator st first pre skip_on_failure allow_reuse index)) in *.
  unfold add_root_validator at 1.
  assert (Hhas : existsb (dict_has (fn_name (underlying_function second)))
                   (st_dict st' :: st_bases_dicts st') = true).
  { cbn [existsb]. rewrite Hdict, Hname. unfold dict_has.
    rewrite dict_get_set_same. reflexivity. }
  rewrite Hhas. eexists. reflexivity.
Qed.

Lemma add_root_validator_once_witness :
  exists msg,
    add_root_validator
      (snd (add_root_validator Patient_state
              (PlainFunction (mkFunction "check" "app.validators" "check" ["cls"; "values"]))
              true false true (-1)))
      (ClassMethod (mkFunction "check" "app.other" "Other.check" ["cls"; "values"]))
      false true true 0
    = (Raise (ConfigError msg),
       snd (add_root_validator Patient_state
              (PlainFunction (mkFunction "check" "app.validators" "check" ["cls"; "values"]))
              true false true (-1))).
Proof.
  apply (@add_root_validator_once Patient_state
           (PlainFunction (mkFunction "check" "app.validators" "check" ["cls"; "values"]))
           (ClassMethod (mkFunction "check" "app.other" "Other.check" ["cls"; "values"]))
           true false true (-1) false true true 0); reflexivity.
Defined.


(** ** What [dict] emits with [exclude_none] *)

Section IterationNotNone.
Variable c : Class.
Variables by_alias exclude_comments : bool.
Variable attrs : list (string * value).
Variable converted : list (string * Result value).

Lemma emit_extension_not_None (field_key : string) (pairs : list (string * value))
    (k : string) (v : value) :
  emit_extension c by_alias attrs converted field_key = Ok pairs ->
  In (k, v) pairs -> is_None v = false.
Proof.
  unfold emit_extension. intros H Hin.
  destruct (negb (is_None (dict_get_None (field_key ++ "__ext") attrs)));
    [|injection H as <-; destruct Hin].
  bind_inv H as key Hkey. bind_inv H as ext_val Hext.
  destruct (negb (is_None ext_val)) eqn:E; [|injection H as <-; destruct Hin].
  bind_inv H as n Hn.
  destruct (Nat.ltb 0 n); injection H as <-; [|destruct Hin].
  destruct Hin as [Heq|[]]. injection Heq as <- <-. apply negb_true_iff, E.
Qed.

Lemma emit_element_not_None (prop_name : string) (pairs : list (string * value))
    (k : string) (v : value) :
  emit_element c by_alias true attrs converted prop_name = Ok pairs ->
  In (k, v) pairs -> is_None v = false.
Proof.
  unfold emit_element. intros H Hin.
  bind_inv H as field_key Hfield_key. bind_inv H as field Hfield.
  bind_inv H as v0 Hv0. bind_inv H as ext Hext. injection H as <-.
  apply in_app_or in Hin. destruct Hin as [Hin|Hin].
  - cbn [negb andb] in Hin. rewrite orb_false_r in Hin.
    destruct (negb (is_None v0)) eqn:E; [|destruct Hin].
    destruct Hin as [Heq|[]]. injection Heq as <- <-. apply negb_true_iff, E.
  - destruct (field_primitive field).
    + apply (@emit_extension_not_None field_key ext k v Hext Hin).
    + injection Hext as <-. destruct Hin.
Qed.

Lemma emit_elements_not_None (props : list string) : forall pairs k v,
  emit_elements c by_alias true attrs converted props = Ok pairs ->
  In (k, v) pairs -> is_None v = false.
Proof.
  induction props as [|p props IH]; simpl; intros pairs k v H Hin.
  - injection H as <-. destruct Hin.
  - bind_inv H as first Hfirst. bind_inv H as others Hothers. injection H as <-.
    apply in_app_or in Hin. destruct Hin as [Hin|Hin].
    + apply (@emit_element_not_None p first k v Hfirst Hin).
    + apply (IH _ _ _ Hothers Hin).
Qed.

Lemma _fhir_iter_not_None (pairs : list (string * value)) (k : string) (v : value) :
  dict_get "resource_type" attrs <> Some VNone ->
  _fhir_iter c by_alias true exclude_comments attrs converted = Ok pairs ->
  In (k, v) pairs -> is_None v = false.
Proof.
  unfold _fhir_iter. intros Hrt H Hin.
  bind_inv H as tag Htag. bind_inv H as elements Helements. injection H as <-.
  apply in_app_or in Hin. destruct Hin as [Hin|Hin].
  - destruct (has_resource_base c).
    + bind_inv Htag as rt Hrt'. injection Htag as <-. unfold resource_type_attr in Hrt'.
      destruct (dict_get "resource_type" attrs) as [rt'|]; [|discriminate Hrt'].
      injection Hrt' as ->. destruct Hin as [Heq|[]]. injection Heq as _ <-.
      destruct rt; try reflexivity. exfalso. apply Hrt. reflexivity.
    + injection Htag as <-. destruct Hin.
  - apply in_app_or in Hin. destruct Hin as [Hin|Hin].
    + apply (@emit_elements_not_None _ elements k v Helements Hin).
    + destruct (negb (is_None (dict_get_None FHIR_COMMENTS_FIELD_NAME attrs))) eqn:E;
        [|destruct Hin].
      destruct (negb exclude_comments); [|destruct Hin].
      destruct Hin as [Heq|[]]. injection Heq as _ <-. apply negb_true_iff, E.
Qed.
End IterationNotNone.

(** X11.  With [exclude_none], no key of the mapping [dict] returns
    holds [None], for a record whose own type tag is not [None]. *)
Theorem dict_exclude_none_no_None (Any : Type) (self : Instance)
    (by_alias exclude_comments : bool) (pydantic_extra : list (string * Any))
    (m : list (string * value)) :
  dict_get "resource_type" (inst_dict self) <> Some VNone ->
  snd (dict self by_alias true exclude_comments pydantic_extra) = Ok m ->
  forall k v, In (k, v) m -> v <> VNone.
Proof.
  intros Hrt. unfold dict, dict_pairs. cbn [snd]. intros H k v Hin.
  bind_inv H as pairs Hpairs. injection H as <-.
  apply OrderedDict_In in Hin.
  pose proof (@_fhir_iter_not_None (inst_class self) by_alias exclude_comments
                (inst_dict self) _ pairs k v Hrt Hpairs Hin) as Hv.
  intros ->. discriminate Hv.
Qed.

Lemma dict_exclude_none_no_None_witness :
  VList [VDict [("family", VStr "Smith")]; VNone] <> VNone.
Proof.
  apply (@dict_exclude_none_no_None unit commented_patient true true []
           [("resourceType", VStr "Patient");
            ("active", VBool true);
            ("name", VList [VDict [("family", VStr "Smith")]; VNone])]
           ltac:(discriminate) eq_refl "name").
  right. right. left. reflexivity.
Defined.

(** ** Sequences keep their length *)

Lemma convert_items_length (convert : value -> Result value) (items : list value) :
  forall items', convert_items convert items = Ok items' ->
                 List.length items' = List.length items.
Proof.
  induction items as [|x items IH]; simpl; intros items' H.
  - injection H as <-. reflexivity.
  - bind_inv H as y Hy. bind_inv H as ys Hys. injection H as <-.
    simpl. rewrite (IH _ Hys). reflexivity.
Qed.

(** X12.  The conversion of a list never drops an item: the result is
    a list of the same length (an item that converts to nothing stays in
    it as [None]), or, for the empty list under [exclude_none] only,
    [None]. *)
Theorem _fhir_get_value_list_length (cls : Class)
    (by_alias exclude_none exclude_comments : bool) (items : list value) (r : value) :
  _fhir_get_value cls by_alias exclude_none exclude_comments (VList items) = Ok r ->
  (exists items', r = VList items' /\ List.length items' = List.length items)
  \/ (items = [] /\ exclude_none = true /\ r = VNone).
Proof.
  cbn [_fhir_get_value]. intros H. bind_inv H as items' Hitems. injection H as <-.
  pose proof (convert_items_length _ _ Hitems) as Hlen.
  unfold collapse_empty. cbn [is_sequence_or_dict container_length andb].
  destruct exclude_none; cbn [andb].
  - destruct items' as [|y items'].
    + right. destruct items; [repeat split | discriminate Hlen].
    + left. exists (y :: items'). split; [reflexivity | exact Hlen].
  - left. exists items'. split; [reflexivity | exact Hlen].
Qed.

Lemma _fhir_get_value_list_length_witness :
  (exists items',
      VList [VDict [("family", VStr "Smith")]; VNone] = VList items'
      /\ List.length items' = 2)
  \/ ([VModel HumanName [("family", VStr "Smith")]; VModel HumanName []] = []
      /\ true = true
      /\ VList [VDict [("family", VStr "Smith")]; VNone] = VNone).
Proof.
  apply (@_fhir_get_value_list_length Patient true true false
           [VModel HumanName [("family", VStr "Smith")]; VModel HumanName []]
           (VList [VDict [("family", VStr "Smith")]; VNone])).
  reflexivity.
Defined.


(** ** From [dict] back to the constructor *)

Lemma dict_get_of_In (A : Type) (k : string) (v : A) (d : list (string * A)) :
  In (k, v) d -> exists v', dict_get k d = Some v'.
Proof.
  induction d as [|[k0 w] d IH]; intros Hin; [destruct Hin|]. simpl.
  destruct Hin as [Heq|Hin].
  - injection Heq as -> _. rewrite String.eqb_refl. eauto.
  - destruct (String.eqb k k0); [eauto | apply IH, Hin].
Qed.

(** The type tag of a resource is in the mapping, under [resourceType],
    unless an element of the class is emitted under that key. *)
Lemma dict_resourceType_value (Any : Type) (self : Instance)
    (by_alias exclude_none exclude_comments : bool)
    (pydantic_extra : list (string * Any)) (m : list (string * value)) (rt : value) :
  has_resource_base (inst_class self) = true ->
  dict_get "resource_type" (inst_dict self) = Some rt ->
  emits_key (inst_class self) by_alias "resourceType" = false ->
  snd (dict self by_alias exclude_none exclude_comments pydantic_extra) = Ok m ->
  dict_get "resourceType" m = Some rt.
Proof.
  intros Hbase Hrt Hemits. unfold dict, dict_pairs. cbn [snd]. intros H.
  bind_inv H as pairs Hpairs. injection H as <-.
  pose proof (@_fhir_iter_shape _ _ _ _ _ _ pairs Hpairs) as Hshape.
  rewrite Hbase in Hshape. destruct Hshape as [rt' [rest [Hrt' Hshape]]].
  assert (Hin : In ("resourceType", rt') (rev pairs))
    by (apply -> in_rev; rewrite Hshape; left; reflexivity).
  rewrite dict_get_OrderedDict.
  destruct (dict_get_of_In _ _ _ Hin) as [v Hv]. rewrite Hv. f_equal.
  apply dict_get_In, in_rev in Hv.
  destruct (@_fhir_iter_pairs _ _ _ _ _ _ pairs "resourceType" v Hpairs Hv)
    as [[_ Hv']|[[Hkey _]|[_ Hkey]]].
  - rewrite Hrt in Hv'. injection Hv' as ->. reflexivity.
  - apply field_output_key_emits in Hkey. rewrite Hemits in Hkey. discriminate Hkey.
  - discriminate Hkey.
Qed.

(** X13.  Round trip of the type tag.  Take a resource whose
    [resource_type] attribute is the declared default of its class, a
    class that declares no field named [resourceType] and emits no
    element under that key.  What [dict] returns for it passes the tag
    check of the constructor of the same class, which finds the tag
    under [resourceType] and hands the mapping on without its tag keys.
    When that tag is not [None], the check of any class that declares
    no field named [resourceType] either and has another declared tag
    refuses the same mapping with a validation error at
    [resource_type]. *)
Theorem dict_output_passes_tag_check (Any : Type) (render : value -> string)
    (self : Instance) (by_alias exclude_none exclude_comments : bool)
    (pydantic_extra : list (string * Any)) (m : list (string * value)) :
  has_resource_base (inst_class self) = true ->
  dict_get "resource_type" (inst_dict self) = Some (default_tag (inst_class self)) ->
  emits_key (inst_class self) by_alias "resourceType" = false ->
  dict_has "resourceType" (__fields__ (inst_class self)) = false ->
  snd (dict self by_alias exclude_none exclude_comments pydantic_extra) = Ok m ->
  check_resource_type render (inst_class self) m
  = Ok (dict_del "resourceType" (dict_del "resource_type" m))
  /\ forall other : Class,
       dict_has "resourceType" (__fields__ other) = false ->
       default_tag (inst_class self) <> VNone ->
       default_tag other <> default_tag (inst_class self) ->
       exists e,
         check_resource_type render other m
         = Raise (ValidationError [mkErrorWrapper e "resource_type"] other).
Proof.
  intros Hbase Hrt Hemits Hfield Hm.
  pose proof (dict_resourceType_value _ _ _ _ _ Hbase Hrt Hemits Hm) as Htag.
  assert (Hhas : dict_has "resourceType" m = true) by (unfold dict_has; rewrite Htag; reflexivity).
  assert (Hget : dict_get_None "resourceType" m = default_tag (inst_class self))
    by (unfold dict_get_None; rewrite Htag; reflexivity).
  split.
  - rewrite check_resource_type_unfold. cbv zeta.
    rewrite Hhas, Hfield. cbn [negb andb]. rewrite Hget.
    rewrite (proj2 (differs_from_default_false _ _) eq_refl), andb_false_r. reflexivity.
  - intros other Hother Hnone Hdiff.
    rewrite check_resource_type_unfold. cbv zeta.
    rewrite Hhas, Hother. cbn [negb andb]. rewrite Hget.
    assert (H1 : is_None (default_tag (inst_class self)) = false).
    { destruct (is_None (default_tag (inst_class self))) eqn:E; [|reflexivity].
      apply is_None_true in E. contradiction. }
    assert (H2 : differs_from_default (default_tag (inst_class self))
                   (get_resource_type other) = true).
    { destruct (differs_from_default _ _) eqn:E; [reflexivity|].
      apply differs_from_default_false in E. exfalso. apply Hdiff. symmetry. exact E. }
    rewrite H1, H2. eexists. reflexivity.
Qed.

Lemma dict_output_passes_tag_check_witness :
  check_resource_type render_repr Patient
    [("resourceType", VStr "Patient"); ("active", VBool true)]
  = Ok (dict_del "resourceType"
          (dict_del "resource_type"
             [("resourceType", VStr "Patient"); ("active", VBool true)]))
  /\ forall other : Class,
       dict_has "resourceType" (__fields__ other) = false ->
       default_tag Patient <> VNone ->
       default_tag other <> default_tag Patient ->
       exists e,
         check_resource_type render_repr other
           [("resourceType", VStr "Patient"); ("active", VBool true)]
         = Raise (ValidationError [mkErrorWrapper e "resource_type"] other).
Proof.
  apply (@dict_output_passes_tag_check unit render_repr
           (mkInstance Patient [("resource_type", VStr "Patient"); ("active", VBool true)])
           true true false []
           [("resourceType", VStr "Patient"); ("active", VBool true)]);
    reflexivity.
Defined.

(** ** [json] and the warning of [dict] *)

(** X14.  Every call of [json] that gets as far as [dict] logs the
    warning of [dict] about extra arguments, exactly once: [json] always
    passes [include], [exclude], [exclude_unset] and [exclude_defaults]
    on, whatever their values. *)
Theorem json_always_warns (self : Instance) (include exclude : FieldSet)
    (by_alias : option bool) (exclude_unset exclude_defaults : bool)
    (exclude_none : option bool) (exclude_comments : bool) :
  exclude_comments = false \/ (forall t, exclude <> FieldSetOther t) ->
  fst (json_data self include exclude by_alias exclude_unset exclude_defaults
                 exclude_none exclude_comments)
  = [dict_warning (inst_class self)].
Proof.
  intros H. unfold json_data.
  destruct exclude_comments.
  - destruct H as [H|H]; [discriminate H|].
    destruct exclude as [ | names | entries | t ]; try reflexivity.
    exfalso. apply (H t). reflexivity.
  - reflexivity.
Qed.

Lemma json_always_warns_witness :
  fst (json_data commented_patient FieldSetNone (FieldSetSet ["active"]) (Some false)
                 true true None true)
  = [dict_warning Patient].
Proof.
  apply (@json_always_warns commented_patient FieldSetNone (FieldSetSet ["active"])
           (Some false) true true None true).
  right. discriminate.
Defined.


(** ** Encoding *)

Section EncodingFacts.
Variables OPT_INDENT_2 OPT_SORT_KEYS : Z.
Variable str_encode : string -> Result (list Byte.byte).
Variable bytes_decode : list Byte.byte -> Result string.
Variable json_dumps : value -> list (string * value) -> Result Encoded.
Variable orjson_configured : bool.
Variable orjson_dumps : value -> option value -> Result (list Byte.byte).

Lemma as_requested_type (return_bytes : bool) (result r : Encoded) :
  as_requested str_encode bytes_decode return_bytes result = Ok r ->
  if return_bytes then exists b, r = Bytes b else exists s, r = Text s.
Proof.
  unfold as_requested. destruct return_bytes, result as [s|b]; intros H.
  - bind_inv H as b Hb. injection H as <-. eauto.
  - injection H as <-. eauto.
  - injection H as <-. eauto.
  - bind_inv H as s Hs. injection H as <-. eauto.
Qed.

(** X15.  Whatever the configured encoder returns, [json] returns
    [bytes] when [return_bytes] is set and [str] when it is not. *)
Theorem json_returns_requested_type (self : Instance) (include exclude : FieldSet)
    (by_alias : option bool) (exclude_unset exclude_defaults : bool)
    (exclude_none : option bool) (exclude_comments return_bytes : bool)
    (dumps_kwargs : list (string * value)) (r : Encoded) :
  snd (json OPT_INDENT_2 OPT_SORT_KEYS str_encode bytes_decode json_dumps orjson_configured
            self include exclude by_alias exclude_unset exclude_defaults exclude_none
            exclude_comments return_bytes dumps_kwargs) = Ok r ->
  if return_bytes then exists b, r = Bytes b else exists s, r = Text s.
Proof.
  unfold json.
  destruct (if exclude_comments then exclude_with_comments exclude else Ok exclude);
    [|discriminate].
  destruct (if orjson_configured then orjson_kwargs OPT_INDENT_2 OPT_SORT_KEYS dumps_kwargs return_bytes
            else ([], Ok dumps_kwargs)) as [warnings [kwargs|e]]; [|discriminate].
  destruct (json_data self include exclude by_alias exclude_unset exclude_defaults
                      exclude_none exclude_comments) as [warnings' outcome].
  cbn [snd]. intros H. bind_inv H as data Hdata. bind_inv H as result Hresult.
  apply (as_requested_type _ _ H).
Qed.

(** The keyword arguments the encoder gets, in full. *)
Lemma orjson_kwargs_shape (dumps_kwargs : list (string * value)) (return_bytes : bool)
    (warnings : list string) (kwargs : list (string * value)) :
  orjson_kwargs OPT_INDENT_2 OPT_SORT_KEYS dumps_kwargs return_bytes = (warnings, Ok kwargs) ->
  (warnings = [] \/ warnings = [orjson_warning])
  /\ (kwargs = [("return_bytes", VBool return_bytes)]
      \/ exists option,
           py_positive option = Ok true
           /\ kwargs = [("option", option); ("return_bytes", VBool return_bytes)]).
Proof.
  unfold orjson_kwargs.
  set (option0 := match dict_get "option" dumps_kwargs with Some o => o | None => VInt 0 end).
  set (p := if py_is_zero option0 then _ else _).
  destruct p as [option rest].
  destruct (Nat.ltb 0 (List.length rest)) eqn:Elen.
  - destruct (py_positive option) as [positive|e] eqn:Epos; [|discriminate].
    intros H. injection H as <- <-. split; [right; reflexivity|].
    destruct positive; [right; exists option; split; [exact Epos | reflexivity] | left; reflexivity].
  - apply Nat.ltb_ge in Elen.
    assert (rest = []) as -> by (destruct rest; [reflexivity | simpl in Elen; lia]).
    destruct (py_positive option) as [positive|e] eqn:Epos; [|discriminate].
    intros H. injection H as <- <-. split; [left; reflexivity|].
    destruct positive; [right; exists option; split; [exact Epos | reflexivity] | left; reflexivity].
Qed.

(** X16.  With the [orjson] wrapper configured, the encoder is called
    with [return_bytes] and at most one more keyword argument, a
    positive [option]: every other keyword argument of the caller is
    dropped, with at most one warning. *)
Theorem orjson_kwargs_result (dumps_kwargs : list (string * value)) (return_bytes : bool)
    (warnings : list string) (kwargs : list (string * value)) :
  orjson_kwargs OPT_INDENT_2 OPT_SORT_KEYS dumps_kwargs return_bytes = (warnings, Ok kwargs) ->
  (warnings = [] \/ warnings = [orjson_warning])
  /\ (kwargs = [("return_bytes", VBool return_bytes)]
      \/ exists option,
           py_positive option = Ok true
           /\ kwargs = [("option", option); ("return_bytes", VBool return_bytes)]).
Proof. exact (@orjson_kwargs_shape dumps_kwargs return_bytes warnings kwargs). Qed.

Lemma py_positive_not_zero (v : value) : py_positive v = Ok true -> py_is_zero v = false.
Proof.
  destruct v; simpl; intros H; try discriminate H; injection H as H.
  - rewrite H. reflexivity.
  - apply Z.ltb_lt in H. apply Z.eqb_neq. lia.
Qed.

(** X17.  An explicit positive [option] wins: [indent] and [sort_keys]
    are then not looked at, and are dropped with the other keyword
    arguments, with a warning. *)
Theorem orjson_kwargs_explicit_option (dumps_kwargs : list (string * value))
    (return_bytes : bool) (option : value) :
  dict_get "option" dumps_kwargs = Some option ->
  py_positive option = Ok true ->
  orjson_kwargs OPT_INDENT_2 OPT_SORT_KEYS dumps_kwargs return_bytes
  = ((if Nat.ltb 0 (List.length (dict_del "option" dumps_kwargs))
      then [orjson_warning] else []),
     Ok [("option", option); ("return_bytes", VBool return_bytes)]).
Proof.
  intros Hget Hpos. unfold orjson_kwargs.
  rewrite Hget, (py_positive_not_zero _ Hpos).
  destruct (Nat.ltb 0 (List.length (dict_del "option" dumps_kwargs))) eqn:Elen.
  - rewrite Hpos. reflexivity.
  - apply Nat.ltb_ge in Elen.
    assert (dict_del "option" dumps_kwargs = []) as ->
      by (destruct (dict_del "option" dumps_kwargs); [reflexivity | simpl in Elen; lia]).
    rewrite Hpos. reflexivity.
Qed.

Lemma with_indent_cons (v : value) (k0 : string) (w : value) (kw : list (string * value)) :
  with_indent v ((k0, w) :: kw)
  = (k0, if String.eqb k0 "indent" then v else w) :: with_indent v kw.
Proof. unfold with_indent. cbn [map fst]. destruct (String.eqb k0 "indent"); reflexivity. Qed.

Lemma with_indent_get (v : value) (k : string) (kw : list (string * value)) :
  k <> "indent" -> dict_get k (with_indent v kw) = dict_get k kw.
Proof.
  intros Hk. induction kw as [|[k0 w] kw IH]; [reflexivity|].
  rewrite with_indent_cons. cbn [dict_get].
  destruct (String.eqb k k0) eqn:E; [|exact IH].
  apply String.eqb_eq in E. subst k0.
  apply String.eqb_neq in Hk. rewrite Hk. reflexivity.
Qed.

Lemma with_indent_has (v : value) (k : string) (kw : list (string * value)) :
  dict_has k (with_indent v kw) = dict_has k kw.
Proof.
  unfold dict_has. induction kw as [|[k0 w] kw IH]; [reflexivity|].
  rewrite with_indent_cons. cbn [dict_get].
  destruct (String.eqb k k0); [reflexivity | exact IH].
Qed.

Lemma with_indent_del (v : value) (k : string) (kw : list (string * value)) :
  dict_del k (with_indent v kw) = with_indent v (dict_del k kw).
Proof.
  induction kw as [|[k0 w] kw IH]; [reflexivity|].
  rewrite with_indent_cons. cbn [dict_del].
  destruct (String.eqb k k0); [exact IH|].
  rewrite with_indent_cons, IH. reflexivity.
Qed.

Lemma with_indent_del_indent (v : value) (kw : list (string * value)) :
  dict_del "indent" (with_indent v kw) = dict_del "indent" kw.
Proof.
  induction kw as [|[k0 w] kw IH]; [reflexivity|].
  rewrite with_indent_cons. cbn [dict_del]. rewrite IH.
  destruct (String.eqb "indent" k0) eqn:E; [reflexivity|].
  rewrite String.eqb_sym, E. reflexivity.
Qed.

Lemma with_indent_absent (v : value) (kw : list (string * value)) :
  dict_has "indent" kw = false -> with_indent v kw = kw.
Proof.
  unfold dict_has. induction kw as [|[k0 w] kw IH]; [reflexivity|].
  rewrite with_indent_cons. cbn [dict_get].
  destruct (String.eqb "indent" k0) eqn:E; [discriminate|].
  intros H. rewrite String.eqb_sym, E, (IH H). reflexivity.
Qed.

Lemma with_indent_length (v : value) (kw : list (string * value)) :
  List.length (with_indent v kw) = List.length kw.
Proof. apply length_map. Qed.

(** X18.  Of [indent] only the presence counts: whatever value is
    given under it, the keyword arguments of the encoder and the log are
    the same. *)
Theorem orjson_kwargs_indent_value (v : value) (dumps_kwargs : list (string * value))
    (return_bytes : bool) :
  orjson_kwargs OPT_INDENT_2 OPT_SORT_KEYS (with_indent v dumps_kwargs) return_bytes
  = orjson_kwargs OPT_INDENT_2 OPT_SORT_KEYS dumps_kwargs return_bytes.
Proof.
  unfold orjson_kwargs.
  rewrite (@with_indent_get v "option" dumps_kwargs) by discriminate.
  rewrite with_indent_del.
  destruct (py_is_zero _).
  - rewrite with_indent_has.
    destruct (dict_has "indent" (dict_del "option" dumps_kwargs)) eqn:Ehas.
    + rewrite with_indent_del_indent. reflexivity.
    + rewrite (with_indent_absent _ _ Ehas). reflexivity.
  - rewrite with_indent_length.
    destruct (Nat.ltb 0 (List.length (dict_del "option" dumps_kwargs))) eqn:Elen;
      [reflexivity|].
    apply Nat.ltb_ge in Elen.
    assert (dict_del "option" dumps_kwargs = []) as ->
      by (destruct (dict_del "option" dumps_kwargs); [reflexivity | simpl in Elen; lia]).
    reflexivity.
Qed.

(** X19.  The module's [orjson] wrapper, called with the keyword
    arguments [json] prepares for it, accepts them and returns the type
    that was asked for: the conversion at the end of [json] has nothing
    left to do. *)
Theorem orjson_json_dumps_as_requested (dumps_kwargs : list (string * value))
    (return_bytes : bool) (warnings : list string) (kwargs : list (string * value))
    (v : value) (r : Encoded) :
  orjson_kwargs OPT_INDENT_2 OPT_SORT_KEYS dumps_kwargs return_bytes = (warnings, Ok kwargs) ->
  orjson_json_dumps bytes_decode orjson_dumps v kwargs = Ok r ->
  as_requested str_encode bytes_decode return_bytes r = Ok r.
Proof.
  intros Hkw Hr.
  destruct (orjson_kwargs_shape _ _ Hkw) as [_ [->|[option [Hpos ->]]]];
    unfold orjson_json_dumps in Hr; cbn [dict_del dict_get String.eqb Ascii.eqb Bool.eqb
                                          List.length Nat.eqb negb] in Hr;
    simpl in Hr.
  - bind_inv Hr as raw Hraw. destruct return_bytes.
    + injection Hr as <-. reflexivity.
    + bind_inv Hr as s Hs. injection Hr as <-. reflexivity.
  - rewrite Hpos in Hr. simpl in Hr. bind_inv Hr as raw Hraw. destruct return_bytes.
    + injection Hr as <-. reflexivity.
    + bind_inv Hr as s Hs. injection Hr as <-. reflexivity.
Qed.
End EncodingFacts.

Lemma json_returns_requested_type_witness :
  exists b, Bytes (list_byte_of_string "{}") = Bytes b.
Proof.
  apply (@json_returns_requested_type 1 32 utf8_encode utf8_decode text_dumps false
           commented_patient FieldSetNone FieldSetNone None false false None false true
           [("indent", VInt 2)] (Bytes (list_byte_of_string "{}"))).
  reflexivity.
Defined.

Lemma orjson_kwargs_result_witness :
  ([orjson_warning] = [] \/ [orjson_warning] = [orjson_warning])
  /\ ([("option", VInt 33); ("return_bytes", VBool false)]
      = [("return_bytes", VBool false)]
      \/ exists option,
           py_positive option = Ok true
           /\ [("option", VInt 33); ("return_bytes", VBool false)]
              = [("option", option); ("return_bytes", VBool false)]).
Proof.
  apply (@orjson_kwargs_result 1 32
           [("indent", VInt 4); ("sort_keys", VBool true); ("ensure_ascii", VBool false)]
           false [orjson_warning] [("option", VInt 33); ("return_bytes", VBool false)]).
  reflexivity.
Defined.

Lemma orjson_kwargs_explicit_option_witness :
  orjson_kwargs 1 32 [("indent", VInt 2); ("option", VInt 16)] true
  = ((if Nat.ltb 0 (List.length (dict_del "option" [("indent", VInt 2); ("option", VInt 16)]))
      then [orjson_warning] else []),
     Ok [("option", VInt 16); ("return_bytes", VBool true)]).
Proof.
  apply (@orjson_kwargs_explicit_option 1 32 [("indent", VInt 2); ("option", VInt 16)]
           true (VInt 16)); reflexivity.
Defined.

Lemma orjson_json_dumps_as_requested_witness :
  as_requested utf8_encode utf8_decode false (Text "{}") = Ok (Text "{}").
Proof.
  apply (@orjson_json_dumps_as_requested 1 32 utf8_encode utf8_decode
           (fun _ _ => Ok (list_byte_of_string "{}"))
           [("indent", VInt 2)] false [] [("option", VInt 1); ("return_bytes", VBool false)]
           VNone (Text "{}")); reflexivity.
Defined.

(** ** [yaml] *)

Lemma set_add_has (x : string) (s : list string) :
  existsb (String.eqb x) (set_add x s) = true.
Proof.
  unfold set_add. destruct (existsb (String.eqb x) s) eqn:E; [exact E|].
  rewrite existsb_app. simpl. rewrite String.eqb_refl, orb_true_r. reflexivity.
Qed.

Lemma set_add_keeps (x y : string) (s : list string) :
  existsb (String.eqb y) s = true -> existsb (String.eqb y) (set_add x s) = true.
Proof.
  intros H. unfold set_add. destruct (existsb (String.eqb x) s); [exact H|].
  rewrite existsb_app, H. reflexivity.
Qed.

Lemma dict_has_set_same (A : Type) (k : string) (v : A) (d : list (string * A)) :
  dict_has k (dict_set k v d) = true.
Proof. unfold dict_has. rewrite dict_get_set_same. reflexivity. Qed.

Lemma dict_has_set_keeps (A : Type) (k k' : string) (v : A) (d : list (string * A)) :
  dict_has k d = true -> dict_has k (dict_set k' v d) = true.
Proof.
  intros H. destruct (String.eqb k k') eqn:E.
  - apply String.eqb_eq in E. subst. apply dict_has_set_same.
  - apply String.eqb_neq in E. unfold dict_has in *.
    rewrite (@dict_get_set_other A k k' v d E). exact H.
Qed.

Lemma dict_update_has (A : Type) (other d : list (string * A)) (k : string) :
  dict_has k d = true -> dict_has k (dict_update d other) = true.
Proof.
  unfold dict_update. revert d.
  induction other as [|[k1 v1] other IH]; intros d H; [exact H|].
  simpl. apply IH. unfold insert_pair. simpl. apply dict_has_set_keeps, H.
Qed.

Lemma dict_set_NoDup (A : Type) (k : string) (v : A) (d : list (string * A)) :
  NoDup (dict_keys d) -> NoDup (dict_keys (dict_set k v d)).
Proof.
  intros Hd. rewrite dict_keys_set. destruct (dict_has k d) eqn:E; [exact Hd|].
  apply NoDup_app; [exact Hd | repeat constructor; intros [] |].
  intros x Hx [Heq|[]]. subst x. exact (@dict_has_false_keys A k d E Hx).
Qed.

Lemma dict_get_rev (A : Type) (k : string) (d : list (string * A)) :
  NoDup (dict_keys d) -> dict_get k (rev d) = dict_get k d.
Proof.
  intros Hd.
  assert (Hr : NoDup (map fst (rev d))).
  { rewrite map_rev. apply NoDup_rev. exact Hd. }
  destruct (dict_get k d) as [v|] eqn:E.
  - apply (@dict_get_NoDup A k v (rev d) Hr). apply in_rev. rewrite rev_involutive.
    apply dict_get_In, E.
  - destruct (dict_get k (rev d)) as [v|] eqn:E'; [|reflexivity].
    apply dict_get_In in E'. apply in_rev in E'.
    apply (@dict_get_NoDup A k v d Hd) in E'. congruence.
Qed.

Lemma dict_update_get (A : Type) (k : string) (d other : list (string * A)) :
  NoDup (dict_keys other) ->
  dict_get k (dict_update d other)
  = match dict_get k other with Some v => Some v | None => dict_get k d end.
Proof.
  intros Hnd. unfold dict_update. rewrite (@fold_insert_get A other d k).
  rewrite (@dict_get_rev A k other Hnd). reflexivity.
Qed.

Lemma existsb_eqb_In (x : string) (s : list string) :
  existsb (String.eqb x) s = true <-> In x s.
Proof.
  rewrite existsb_exists. split.
  - intros [y [Hin Hy]]. apply String.eqb_eq in Hy. subst. exact Hin.
  - intros Hin. exists x. split; [exact Hin | apply String.eqb_refl].
Qed.

Lemma dict_get_of_names (A : Type) (v : A) (k : string) (names : list string) :
  dict_get k (OrderedDict (map (fun e => (e, v)) names))
  = if existsb (String.eqb k) names then Some v else None.
Proof.
  rewrite dict_get_OrderedDict, <- map_rev.
  assert (H : forall l, dict_get k (map (fun e => (e, v)) l)
                        = if existsb (String.eqb k) l then Some v else None).
  { induction l as [|x l IH]; [reflexivity|]. simpl.
    destruct (String.eqb k x); [reflexivity | exact IH]. }
  rewrite H. destruct (existsb (String.eqb k) names) eqn:E.
  - apply existsb_eqb_In in E. apply in_rev in E. apply existsb_eqb_In in E.
    rewrite E. reflexivity.
  - destruct (existsb (String.eqb k) (rev names)) eqn:E'; [|reflexivity].
    apply existsb_eqb_In in E'. apply in_rev in E'. apply existsb_eqb_In in E'. congruence.
Qed.

Section YamlFacts.
Variables type_is_primitive outer_is_list : ModelField -> bool.
Variable BaseModel_dict :
  Instance -> Exclusion -> Exclusion -> bool -> option bool -> bool -> bool -> bool ->
  Result (list (string * value)).

Lemma children_excludes_NoDup (c : Class) : NoDup (dict_keys (children_excludes type_is_primitive outer_is_list c)).
Proof.
  unfold children_excludes.
  assert (H : forall (fields : list (string * ModelField)) d,
             NoDup (dict_keys d) ->
             NoDup (dict_keys
                      (fold_left
                         (fun children (kf : string * ModelField) =>
                            if type_is_primitive (snd kf) then children
                            else if outer_is_list (snd kf)
                                 then dict_set (field_name (snd kf))
                                        (ExcludeNested
                                           [("__all__", ExcludeNames [FHIR_COMMENTS_FIELD_NAME])])
                                        children
                                 else dict_set (field_name (snd kf))
                                        (ExcludeNames [FHIR_COMMENTS_FIELD_NAME]) children)
                         fields d))).
  { induction fields as [|kf fields IH]; intros d Hd; [exact Hd|].
    simpl. apply IH.
    destruct (type_is_primitive (snd kf)); [exact Hd|].
    destruct (outer_is_list (snd kf)); apply dict_set_NoDup, Hd. }
  apply H. constructor.
Qed.

Lemma exclude_resource_type_has (k : string) (exclude : Exclusion) :
  exclusion_has k exclude = true ->
  exclusion_has k (exclude_resource_type exclude) = true.
Proof.
  destruct exclude as [|names|entries]; cbn [exclude_resource_type exclusion_has];
    [discriminate| |].
  - apply set_add_keeps.
  - intros H. destruct (dict_has "resource_type" entries);
      cbn [negb exclusion_has]; [exact H|].
    apply dict_has_set_keeps, H.
Qed.

Lemma exclude_resource_type_own (exclude : Exclusion) :
  exclusion_has "resource_type" (exclude_resource_type exclude) = true.
Proof.
  destruct exclude as [|names|entries]; cbn [exclude_resource_type exclusion_has];
    [reflexivity | apply set_add_has |].
  destruct (dict_has "resource_type" entries) eqn:E; cbn [negb exclusion_has];
    [exact E | apply dict_has_set_same].
Qed.

Lemma exclude_resource_type_other (k : string) (exclude : Exclusion) :
  exclude <> NoExclusion ->
  exclusion_has k (exclude_resource_type exclude)
  = exclusion_has k exclude || String.eqb k "resource_type".
Proof.
  intros Hne. destruct exclude as [|names|entries]; [contradiction| |];
    cbn [exclude_resource_type exclusion_has].
  - unfold set_add. destruct (existsb (String.eqb "resource_type") names) eqn:E.
    + destruct (String.eqb k "resource_type") eqn:Ek; [|rewrite orb_false_r; reflexivity].
      apply String.eqb_eq in Ek. subst k. rewrite E. reflexivity.
    + rewrite existsb_app. cbn [existsb]. rewrite orb_false_r. reflexivity.
  - destruct (dict_has "resource_type" entries) eqn:E; cbn [negb exclusion_has].
    + destruct (String.eqb k "resource_type") eqn:Ek; [|rewrite orb_false_r; reflexivity].
      apply String.eqb_eq in Ek. subst k. rewrite E. reflexivity.
    + unfold dict_has. destruct (String.eqb k "resource_type") eqn:Ek.
      * apply String.eqb_eq in Ek. subst k. rewrite dict_get_set_same, orb_true_r.
        reflexivity.
      * apply String.eqb_neq in Ek.
        rewrite (@dict_get_set_other _ k "resource_type" ExcludeAll entries Ek).
        rewrite orb_false_r. reflexivity.
Qed.

Lemma exclude_children_has (c : Class) (k : string) (exclude : Exclusion) :
  exclusion_has k exclude = true ->
  exclusion_has k (exclude_children type_is_primitive outer_is_list c exclude) = true.
Proof.
  intros H. unfold exclude_children.
  destruct (Nat.ltb 0 _); [|exact H].
  destruct exclude as [|names|entries]; cbn [exclusion_has] in *; [discriminate| |].
  - apply dict_update_has. unfold dict_has.
    rewrite dict_get_of_names, H. reflexivity.
  - apply dict_update_has, H.
Qed.

Lemma exclude_comments_key_id (exclude : Exclusion) :
  exclusion_has FHIR_COMMENTS_FIELD_NAME exclude = true ->
  exclude_comments_key exclude = exclude.
Proof. intros H. unfold exclude_comments_key. rewrite H. reflexivity. Qed.

Lemma yaml_exclude_unfold (c : Class) (exclude : Exclusion) :
  yaml_exclude type_is_primitive outer_is_list c exclude
  = if exclusion_has FHIR_COMMENTS_FIELD_NAME (exclude_resource_type exclude)
    then exclude_children type_is_primitive outer_is_list c (exclude_resource_type exclude)
    else exclude_resource_type exclude.
Proof.
  unfold yaml_exclude.
  destruct (exclusion_has FHIR_COMMENTS_FIELD_NAME (exclude_resource_type exclude)) eqn:E;
    [|reflexivity].
  apply exclude_comments_key_id, exclude_children_has, E.
Qed.

Lemma yaml_exclude_resource_type_key (c : Class) (exclude : Exclusion) :
  exclusion_has "resource_type" (yaml_exclude type_is_primitive outer_is_list c exclude) = true.
Proof.
  rewrite yaml_exclude_unfold. destruct (exclusion_has FHIR_COMMENTS_FIELD_NAME _).
  - apply exclude_children_has, exclude_resource_type_own.
  - apply exclude_resource_type_own.
Qed.

(** X20.  Whatever the caller excludes, [yaml] asks pydantic to
    exclude [resource_type] too. *)
Theorem yaml_excludes_resource_type (c : Class) (exclude : Exclusion) :
  exclusion_has "resource_type" (yaml_exclude type_is_primitive outer_is_list c exclude) = true.
Proof. exact (yaml_exclude_resource_type_key c exclude). Qed.

(** X21.  The second test for [fhir_comments] (lines 353 to 357) never
    changes [exclude]: inside the branch the key is always there
    already. *)
Theorem yaml_exclude_second_test_idle (c : Class) (exclude : Exclusion) :
  exclusion_has FHIR_COMMENTS_FIELD_NAME (exclude_resource_type exclude) = true ->
  exclude_comments_key (exclude_children type_is_primitive outer_is_list c (exclude_resource_type exclude))
  = exclude_children type_is_primitive outer_is_list c (exclude_resource_type exclude).
Proof. intros H. apply exclude_comments_key_id, exclude_children_has, H. Qed.

(** X22.  When the caller excludes [fhir_comments], every field that
    is not primitive gets the exclusion of its children's comments, in
    place of whatever the caller asked for that field: a field the
    caller excluded as a whole is no longer excluded. *)
Theorem yaml_exclude_children_override (c : Class) (exclude : Exclusion)
    (k : string) (spec : ExcludeSpec) :
  exclusion_has FHIR_COMMENTS_FIELD_NAME exclude = true ->
  dict_get k (children_excludes type_is_primitive outer_is_list c) = Some spec ->
  exists entries,
    yaml_exclude type_is_primitive outer_is_list c exclude = ExclusionDict entries
    /\ dict_get k entries = Some spec.
Proof.
  intros Hc Hk. rewrite yaml_exclude_unfold.
  rewrite (exclude_resource_type_has _ _ Hc).
  unfold exclude_children.
 
  assert (Hlen : Nat.ltb 0 (List.length (children_excludes type_is_primitive outer_is_list c)) = true).
  { destruct (children_excludes type_is_primitive outer_is_list c); [discriminate Hk | reflexivity]. }
  rewrite Hlen.
  destruct exclude as [|names|entries]; [discriminate Hc| |].
  - cbn [exclude_resource_type]. eexists. split; [reflexivity|].
    rewrite (@dict_update_get _ k _ _ (children_excludes_NoDup c)), Hk. reflexivity.
  - cbn [exclude_resource_type]. destruct (negb (dict_has "resource_type" entries));
      (eexists; split; [reflexivity|]);
      rewrite (@dict_update_get _ k _ _ (children_excludes_NoDup c)), Hk; reflexivity.
Qed.

(** X23.  The fields [yaml] leaves to the caller: with
    [fhir_comments] excluded, a key that no non-primitive field has is
    excluded exactly when the caller excluded it, or is
    [resource_type]. *)
Theorem yaml_exclude_other_keys (c : Class) (exclude : Exclusion) (k : string) :
  exclusion_has FHIR_COMMENTS_FIELD_NAME exclude = true ->
  dict_get k (children_excludes type_is_primitive outer_is_list c) = None ->
  exclusion_has k (yaml_exclude type_is_primitive outer_is_list c exclude)
  = exclusion_has k exclude || String.eqb k "resource_type".
Proof.
  intros Hc Hk.
  assert (Hne : exclude <> NoExclusion) by (intros ->; discriminate Hc).
  pose proof (exclude_resource_type_other k Hne) as Hrt.
  rewrite yaml_exclude_unfold, (exclude_resource_type_has _ _ Hc), <- Hrt.
  unfold exclude_children.
  destruct (Nat.ltb 0 (List.length (children_excludes type_is_primitive outer_is_list c))); [|reflexivity].
  destruct (exclude_resource_type exclude) as [|names|entries]; [reflexivity| |].
  - cbn [exclusion_has]. unfold dict_has.
    rewrite (@dict_update_get _ k _ _ (children_excludes_NoDup c)), Hk, dict_get_of_names.
    destruct (existsb (String.eqb k) names); reflexivity.
  - cbn [exclusion_has]. unfold dict_has.
    rewrite (@dict_update_get _ k _ _ (children_excludes_NoDup c)), Hk. reflexivity.
Qed.

(** X24.  [yaml] changes the set or mapping the caller passes as
    [exclude]: after the call it holds [resource_type]. *)
Theorem yaml_changes_caller_exclude (c : Class) (exclude : Exclusion) :
  exclude <> NoExclusion ->
  exclusion_has "resource_type" (caller_exclude type_is_primitive outer_is_list c exclude) = true.
Proof.
  intros Hne. unfold caller_exclude.
  destruct exclude as [|names|entries]; [contradiction| |].
  - destruct (_ && _); [apply exclude_resource_type_own | apply yaml_exclude_resource_type_key].
  - apply yaml_exclude_resource_type_key.
Qed.

(** X25.  On a resource, [yaml] returns what pydantic's [dict] gives
    for the prepared [exclude], with [by_alias] and [exclude_none] on
    unless the caller says otherwise, and with the instance's
    [resource_type] under [resourceType]; no other key is touched. *)
Theorem yaml_sets_resourceType (self : Instance) (include exclude : Exclusion)
    (by_alias skip_defaults : option bool) (exclude_unset exclude_defaults : bool)
    (exclude_none : option bool) (result : list (string * value)) :
  has_resource_base (inst_class self) = true ->
  yaml type_is_primitive outer_is_list BaseModel_dict self include exclude by_alias
       skip_defaults exclude_unset exclude_defaults exclude_none = Ok result ->
  exists tag base,
    resource_type_attr (inst_dict self) = Ok tag
    /\ BaseModel_dict self include
         (yaml_exclude type_is_primitive outer_is_list (inst_class self) exclude)
         (match by_alias with Some b => b | None => true end) skip_defaults
         exclude_unset exclude_defaults
         (match exclude_none with Some b => b | None => true end) = Ok base
    /\ dict_get "resourceType" result = Some tag
    /\ forall k, k <> "resourceType" -> dict_get k result = dict_get k base.
Proof.
  intros Hbase H. unfold yaml in H. bind_inv H as base Hb. rewrite Hbase in H.
  bind_inv H as tag Htag. injection H as <-.
  exists tag, base. repeat split; [exact Htag | exact Hb | apply dict_get_set_same |].
  intros k Hk. apply (@dict_get_set_other _ k "resourceType" tag base Hk).
Qed.
End YamlFacts.

Lemma yaml_exclude_second_test_idle_witness :
  exclude_comments_key
    (exclude_children field_primitive (fun field => String.eqb (field_name field) "name")
       Patient (exclude_resource_type (ExclusionSet [FHIR_COMMENTS_FIELD_NAME])))
  = exclude_children field_primitive (fun field => String.eqb (field_name field) "name")
      Patient (exclude_resource_type (ExclusionSet [FHIR_COMMENTS_FIELD_NAME])).
Proof.
  apply (@yaml_exclude_second_test_idle field_primitive
           (fun field => String.eqb (field_name field) "name")
           Patient (ExclusionSet [FHIR_COMMENTS_FIELD_NAME])).
  reflexivity.
Defined.

Lemma yaml_exclude_children_override_witness :
  exists entries,
    yaml_exclude field_primitive (fun field => String.eqb (field_name field) "name")
      Patient (ExclusionSet ["name"; FHIR_COMMENTS_FIELD_NAME])
    = ExclusionDict entries
    /\ dict_get "name" entries
       = Some (ExcludeNested [("__all__", ExcludeNames [FHIR_COMMENTS_FIELD_NAME])]).
Proof.
  apply (@yaml_exclude_children_override field_primitive
           (fun field => String.eqb (field_name field) "name")
           Patient (ExclusionSet ["name"; FHIR_COMMENTS_FIELD_NAME]) "name"
           (ExcludeNested [("__all__", ExcludeNames [FHIR_COMMENTS_FIELD_NAME])]));
    reflexivity.
Defined.

Lemma yaml_exclude_other_keys_witness :
  exclusion_has "active"
    (yaml_exclude field_primitive (fun field => String.eqb (field_name field) "name")
       Patient (ExclusionSet ["active"; FHIR_COMMENTS_FIELD_NAME]))
  = exclusion_has "active" (ExclusionSet ["active"; FHIR_COMMENTS_FIELD_NAME])
    || String.eqb "active" "resource_type".
Proof.
  apply (@yaml_exclude_other_keys field_primitive
           (fun field => String.eqb (field_name field) "name")
           Patient (ExclusionSet ["active"; FHIR_COMMENTS_FIELD_NAME]) "active");
    reflexivity.
Defined.

Lemma yaml_changes_caller_exclude_witness :
  exclusion_has "resource_type"
    (caller_exclude field_primitive (fun field => String.eqb (field_name field) "name")
       Patient (ExclusionSet [FHIR_COMMENTS_FIELD_NAME]))
  = true.
Proof.
  apply (@yaml_changes_caller_exclude field_primitive
           (fun field => String.eqb (field_name field) "name")
           Patient (ExclusionSet [FHIR_COMMENTS_FIELD_NAME])).
  discriminate.
Defined.

Lemma yaml_sets_resourceType_witness :
  exists tag base,
    resource_type_attr (inst_dict commented_patient) = Ok tag
    /\ Ok [("active", VBool true)] = Ok base
    /\ dict_get "resourceType" [("active", VBool true); ("resourceType", VStr "Patient")]
       = Some tag
    /\ forall k, k <> "resourceType" ->
                 dict_get k [("active", VBool true); ("resourceType", VStr "Patient")]
                 = dict_get k base.
Proof.
  apply (@yaml_sets_resourceType field_primitive
           (fun field => String.eqb (field_name field) "name")
           (fun _ _ _ _ _ _ _ _ => Ok [("active", VBool true)])
           commented_patient NoExclusion NoExclusion None None false false None
           [("active", VBool true); ("resourceType", VStr "Patient")]);
    reflexivity.
Defined.

